(** * adk-go telemetry and debug API: a shallow embedding

    The development follows the Go packages of the repository:

    - [internal/telemetry] (telemetry.go): the span-processor registry with
      its do-once initialisation, and the three span annotators;
    - [cmd/restapi/services] (the span exporter): the in-memory trace store
      filled by [ExportSpans];
    - [cmd/restapi/handlers] (debug.go): the trace endpoint and the
      highlight pairs computed by the event-graph endpoint.

    Go pointers that the source compares with [nil] are [option]s; a read
    through a [nil] pointer is a run-time panic and is modelled as such.
    Elements of the slices [[]*genai.Part] and [[]*genai.Content] are taken
    to be non-nil, as the genai library builds them, and so are the
    interface values [trace.Span], [tool.Tool] and
    [agent.InvocationContext] that the annotators receive: a panic inside a
    method of one of these, or inside [json.Marshal], has no counterpart
    here. *)

From stdpp Require Import base option list strings gmap fin_maps.
From Stdlib Require Import ZArith.

Local Open Scope string_scope.
Local Open Scope list_scope.

(** ** Library types used by the source *)

(** A dynamically typed Go value stored in a [map[string]any]. Only its
    identity matters here: such values are handed to [json.Marshal]. *)
Inductive GoValue : Type :=
| GoNil
| GoBool (b : bool)
| GoInt (z : Z)
| GoString (s : string)
| GoOpaque (tag : nat).

(** A Go slice, whose zero value [nil] differs from an empty slice. *)
Definition slice (A : Type) : Type := option (list A).

Definition len {A : Type} (s : slice A) : nat :=
  match s with
  | None => 0
  | Some l => length l
  end.

(** The elements visited by [for _, x := range s]. *)
Definition elems {A : Type} (s : slice A) : list A :=
  match s with
  | None => []
  | Some l => l
  end.

Module genai.

Module Blob.
Record t : Type := mk { MIMEType : string; Data : list Z }.
End Blob.

Module FunctionCall.
Record t : Type := mk {
  ID : string;
  Name : string;
  Args : option (gmap string GoValue)
}.
End FunctionCall.

Module FunctionResponse.
Record t : Type := mk {
  ID : string;
  Name : string;
  Response : option (gmap string GoValue)
}.
End FunctionResponse.

Module Part.
Record t : Type := mk {
  Text : string;
  InlineData : option Blob.t;
  FunctionCall : option FunctionCall.t;
  FunctionResponse : option FunctionResponse.t
}.
End Part.

Module Content.
Record t : Type := mk { Role : string; Parts : slice Part.t }.
End Content.

(** [float32] values are carried by their IEEE bit pattern. *)
Definition float32 : Type := Z.

Module GenerateContentConfig.
Record t : Type := mk {
  TopP : option float32;
  MaxOutputTokens : Z
}.
End GenerateContentConfig.

End genai.

Module model.

Module LLMRequest.
Record t : Type := mk {
  Model : string;
  Contents : list genai.Content.t;
  Config : option genai.GenerateContentConfig.t
}.
End LLMRequest.

Module LLMResponse.
Record t : Type := mk { Content : option genai.Content.t }.
End LLMResponse.

End model.

Module session.

Module Event.
Record t : Type := mk {
  ID : string;
  InvocationID : string;
  Author : string;
  LLMResponse : option model.LLMResponse.t
}.
End Event.

End session.

Module tool.
(** The two methods of the [tool.Tool] interface that the source calls. *)
Record Tool : Type := mkTool { Name : string; Description : string }.
End tool.

Module agent.
(** [agentCtx.Session().ID()] is the only use of the invocation context. *)
Record InvocationContext : Type := mkContext { SessionID : string }.
End agent.

Module attribute.

(** The result of the conversion [float64(x)] of a [float32]. *)
Inductive float64 : Type := Float64OfFloat32 (bits : genai.float32).

Inductive Value : Type :=
| BoolValue (b : bool)
| Int64Value (z : Z)
| Float64Value (f : float64)
| StringValue (s : string).

Record KeyValue : Type := mk { Key : string; Val : Value }.

Definition String (k v : string) : KeyValue := mk k (StringValue v).
Definition Float64 (k : string) (f : float64) : KeyValue := mk k (Float64Value f).
Definition Int (k : string) (z : Z) : KeyValue := mk k (Int64Value z).

(** [Value.AsString]: the string of a STRING value, the empty string for
    a value of any other type. *)
Definition AsString (v : Value) : string :=
  match v with
  | StringValue s => s
  | _ => ""
  end.

End attribute.

Module trace.

(** A span is an interface value; what an annotator does to it is the
    sequence of method calls it receives. *)
Inductive Call : Type :=
| SetAttributes (kv : list attribute.KeyValue)
| End_.

Record Span : Type := mk { name : string; calls : list Call }.

Definition Span_SetAttributes (kv : list attribute.KeyValue) (s : Span) : Span :=
  mk (name s) (calls s ++ [SetAttributes kv]).

Definition Span_End (s : Span) : Span :=
  mk (name s) (calls s ++ [End_]).

Definition Start (traceName : string) : Span := mk traceName [].

End trace.

(** ** Package internal/telemetry *)

Module telemetry.

Definition systemName : string := "gcp.vertex.agent".
Definition genAiOperationName : string := "gen_ai.operation.name".
Definition genAiToolDescription : string := "gen_ai.tool.description".
Definition genAiToolName : string := "gen_ai.tool.name".
Definition genAiToolCallID : string := "gen_ai.tool.call.id".

(** *** The span-processor registry *)

Section Registry.

Context {SpanProcessor : Type}.

(** [sdktrace.TracerProvider], as far as the source uses it: the
    processors registered with it, in registration order. *)
Record TracerProvider : Type := mkProvider { processors : list SpanProcessor }.

Definition NewTracerProvider : TracerProvider := mkProvider [].

Definition RegisterSpanProcessor (tp : TracerProvider) (p : SpanProcessor)
  : TracerProvider :=
  mkProvider (processors tp ++ [p]).

(** The package-level variables [once], [localTracer] and
    [localTracerConfig]. *)
Record globals : Type := mkGlobals {
  once : bool;
  localTracer : option TracerProvider;
  spanProcessors : list SpanProcessor
}.

Definition initial : globals := mkGlobals false None [].

Definition AddSpanProcessor (processor : SpanProcessor) (g : globals) : globals :=
  mkGlobals (once g) (localTracer g) (spanProcessors g ++ [processor]).

(** [once.Do(f)] runs [f] on the first call only. *)
Definition RegisterTelemetry (g : globals) : globals :=
  if once g then g
  else
    let traceProvider :=
      fold_left RegisterSpanProcessor (spanProcessors g) NewTracerProvider in
    mkGlobals true (Some traceProvider) (spanProcessors g).

Inductive Tracer : Type :=
| LocalTracer (tp : TracerProvider)
| GlobalTracer.

(** [None] is the panic of calling [Tracer] on a nil provider. *)
Definition getTracers (g : globals) : globals * option (list Tracer) :=
  let g' := match localTracer g with
            | None => RegisterTelemetry g
            | Some _ => g
            end in
  (g', tp ← localTracer g'; Some [LocalTracer tp; GlobalTracer]).

Definition StartTrace (traceName : string) (g : globals)
  : globals * option (list trace.Span) :=
  let '(g', tracers) := getTracers g in
  (g', (fun ts => map (fun _ => trace.Start traceName) ts) <$> tracers).

(** The calls a program makes on the registry, and their effect on the
    package state. *)
Inductive op : Type :=
| OpAddSpanProcessor (p : SpanProcessor)
| OpRegisterTelemetry
| OpGetTracers
| OpStartTrace (traceName : string).

Definition step (g : globals) (o : op) : globals :=
  match o with
  | OpAddSpanProcessor p => AddSpanProcessor p g
  | OpRegisterTelemetry => RegisterTelemetry g
  | OpGetTracers => fst (getTracers g)
  | OpStartTrace n => fst (StartTrace n g)
  end.

Definition run (ops : list op) (g : globals) : globals := fold_left step ops g.

(** The processors attached to the local tracer provider, if it exists. *)
Definition attached (g : globals) : option (list SpanProcessor) :=
  processors <$> localTracer g.

End Registry.

Arguments TracerProvider : clear implicits.
Arguments globals : clear implicits.
Arguments Tracer : clear implicits.
Arguments op : clear implicits.

(** *** Serialisation *)

(** What [llmRequestToTrace] builds: the map with the keys ["config"],
    ["model"] and ["content"]. *)
Record RequestTrace : Type := mkRequestTrace {
  config : option genai.GenerateContentConfig.t;
  model_ : string;
  content : list genai.Content.t
}.

(** The values of type [any] that the package serialises. *)
Inductive any : Type :=
| AnyEvent (e : session.Event.t)
| AnyMap (m : option (gmap string GoValue))
| AnyLLMResponse (r : option model.LLMResponse.t)
| AnyRequestTrace (t : RequestTrace).

(** The two results of [json.Marshal]. *)
Inductive MarshalResult : Type :=
| MarshalOk (dump : string)
| MarshalErr (err : string).

(** How a call on a list of spans ends: it returns, or it panics on a nil
    pointer; either way the spans are left as the argument shows. *)
Inductive outcome : Type :=
| Returned (spans : list trace.Span)
| Panicked (spans : list trace.Span).

(** [for _, span := range spans { body }], where [body] gives [None] when
    it panics before touching the span. *)
Fixpoint rangeSpans (body : trace.Span → option trace.Span)
    (spans : list trace.Span) : outcome :=
  match spans with
  | [] => Returned []
  | span :: rest =>
      match body span with
      | None => Panicked (span :: rest)
      | Some span' =>
          match rangeSpans body rest with
          | Returned r => Returned (span' :: r)
          | Panicked r => Panicked (span' :: r)
          end
      end
  end.

Definition llmRequestToTrace (llmRequest : model.LLMRequest.t) : RequestTrace :=
  let filtered (c : genai.Content.t) :=
    genai.Content.mk (genai.Content.Role c)
      (Some (List.filter
               (fun part => negb (bool_decide (is_Some (genai.Part.InlineData part))))
               (elems (genai.Content.Parts c)))) in
  mkRequestTrace (model.LLMRequest.Config llmRequest)
                 (model.LLMRequest.Model llmRequest)
                 (map filtered (model.LLMRequest.Contents llmRequest)).

Section Annotators.

(** [encoding/json] is not part of the repository. *)
Variable json_Marshal : any → MarshalResult.

Definition safeSerialize (obj : any) : string :=
  match json_Marshal obj with
  | MarshalErr _ => "<not serializable>"
  | MarshalOk dump => dump
  end.

Definition mergedToolCallAttributes (e : session.Event.t)
  : list attribute.KeyValue :=
  [ attribute.String genAiOperationName "execute_tool";
    attribute.String genAiToolName "(merged tools)";
    attribute.String genAiToolDescription "(merged tools)";
    attribute.String "gcp.vertex.agent.llm_request" "{}";
    attribute.String "gcp.vertex.agent.llm_request" "{}";
    attribute.String "gcp.vertex.agent.tool_call_args" "N/A";
    attribute.String "gcp.vertex.agent.event_id" (session.Event.ID e);
    attribute.String "gcp.vertex.agent.tool_response" (safeSerialize (AnyEvent e)) ].

Definition TraceMergedToolCalls (spans : list trace.Span)
    (fnResponseEvent : option session.Event.t) : outcome :=
  match fnResponseEvent with
  | None => Returned spans
  | Some e =>
      rangeSpans
        (fun span =>
           Some (trace.Span_End
                   (trace.Span_SetAttributes (mergedToolCallAttributes e) span)))
        spans
  end.

(** The attribute list of one iteration of [TraceToolCall]; [None] is
    the nil dereference in [fnResponseEvent.LLMResponse.Content.Parts]. *)
Definition toolCallAttributes (t : tool.Tool)
    (fnArgs : option (gmap string GoValue)) (e : session.Event.t)
  : option (list attribute.KeyValue) :=
  let attributes :=
    [ attribute.String genAiOperationName "execute_tool";
      attribute.String genAiToolName (tool.Name t);
      attribute.String genAiToolDescription (tool.Description t);
      attribute.String "gcp.vertex.agent.llm_request" "{}";
      attribute.String "gcp.vertex.agent.llm_request" "{}";
      attribute.String "gcp.vertex.agent.tool_call_args" (safeSerialize (AnyMap fnArgs));
      attribute.String "gcp.vertex.agent.event_id" (session.Event.ID e) ] in
  let toolCallID := "<not specified>" in
  let toolResponse := "<not specified>" in
  llmResponse ← session.Event.LLMResponse e;
  content ← model.LLMResponse.Content llmResponse;
  let responseParts := genai.Content.Parts content in
  let '(toolCallID, toolResponse) :=
    match elems responseParts with
    | part0 :: _ =>
        match genai.Part.FunctionResponse part0 with
        | Some functionResponse =>
            (if String.eqb (genai.FunctionResponse.ID functionResponse) ""
             then toolCallID
             else genai.FunctionResponse.ID functionResponse,
             match genai.FunctionResponse.Response functionResponse with
             | Some r => safeSerialize (AnyMap (Some r))
             | None => toolResponse
             end)
        | None => (toolCallID, toolResponse)
        end
    | [] => (toolCallID, toolResponse)
    end in
  let attributes := attributes ++ [attribute.String genAiToolCallID toolCallID] in
  let attributes :=
    attributes ++ [attribute.String "gcp.vertex.agent.tool_response" toolResponse] in
  Some attributes.

Definition TraceToolCall (spans : list trace.Span) (t : tool.Tool)
    (fnArgs : option (gmap string GoValue))
    (fnResponseEvent : option session.Event.t) : outcome :=
  match fnResponseEvent with
  | None => Returned spans
  | Some e =>
      rangeSpans
        (fun span =>
           attributes ← toolCallAttributes t fnArgs e;
           Some (trace.Span_End (trace.Span_SetAttributes attributes span)))
        spans
  end.

(** The attribute list of one iteration of [TraceLLMCall]; [None] is a
    nil dereference of [llmRequest], [event] or [llmRequest.Config]. *)
Definition llmCallAttributes (agentCtx : agent.InvocationContext)
    (llmRequest : option model.LLMRequest.t) (event : option session.Event.t)
  : option (list attribute.KeyValue) :=
  req ← llmRequest;
  ev ← event;
  let attributes :=
    [ attribute.String "gen_ai.system" systemName;
      attribute.String "gen_ai.request.model" (model.LLMRequest.Model req);
      attribute.String "gcp.vertex.agent.invocation_id" (session.Event.InvocationID ev);
      attribute.String "gcp.vertex.agent.session_id" (agent.SessionID agentCtx);
      attribute.String "gcp.vertex.agent.event_id" (session.Event.ID ev);
      attribute.String "gcp.vertex.agent.llm_request"
        (safeSerialize (AnyRequestTrace (llmRequestToTrace req)));
      attribute.String "gcp.vertex.agent.llm_response"
        (safeSerialize (AnyLLMResponse (session.Event.LLMResponse ev))) ] in
  cfg ← model.LLMRequest.Config req;
  let attributes :=
    match genai.GenerateContentConfig.TopP cfg with
    | Some topP =>
        attributes ++
          [attribute.Float64 "gen_ai.request.top_p" (attribute.Float64OfFloat32 topP)]
    | None => attributes
    end in
  let attributes :=
    if Z.eqb (genai.GenerateContentConfig.MaxOutputTokens cfg) 0
    then attributes
    else attributes ++
           [attribute.Int "gen_ai.request.max_tokens"
              (genai.GenerateContentConfig.MaxOutputTokens cfg)] in
  Some attributes.

Definition TraceLLMCall (spans : list trace.Span)
    (agentCtx : agent.InvocationContext)
    (llmRequest : option model.LLMRequest.t)
    (event : option session.Event.t) : outcome :=
  rangeSpans
    (fun span =>
       attributes ← llmCallAttributes agentCtx llmRequest event;
       Some (trace.Span_End (trace.Span_SetAttributes attributes span)))
    spans.

End Annotators.

(** A marshaller for running the annotators on concrete values: it
    renders the identifier of an event and the model of a request, and
    rejects a map that holds an opaque value, as [json.Marshal] rejects
    channels and functions. *)
Definition isOpaque (v : GoValue) : bool :=
  match v with
  | GoOpaque _ => true
  | _ => false
  end.

Definition sampleMarshal (obj : any) : MarshalResult :=
  match obj with
  | AnyEvent e => MarshalOk ("{event " +:+ session.Event.ID e +:+ "}")
  | AnyMap None => MarshalOk "null"
  | AnyMap (Some m) =>
      if forallb (fun kv => negb (isOpaque kv.2)) (map_to_list m)
      then MarshalOk "{map}"
      else MarshalErr "json: unsupported type"
  | AnyLLMResponse None => MarshalOk "null"
  | AnyLLMResponse (Some _) => MarshalOk "{response}"
  | AnyRequestTrace t => MarshalOk ("{request " +:+ model_ t +:+ "}")
  end.

End telemetry.

(** ** Package cmd/restapi/services: the span exporter *)

Module services.

(** [sdktrace.ReadOnlySpan], as far as [ExportSpans] reads it. The two
    identifiers are held in the hexadecimal form that
    [SpanContext().TraceID().String()] and [SpanID().String()] return. *)
Record ReadOnlySpan : Type := mkSpan {
  Name : string;
  Attributes : list attribute.KeyValue;
  TraceID : string;
  SpanID : string
}.

(** The field [traceDict] of [APIServerSpanExporter]. *)
Definition NewAPIServerSpanExporter : gmap string (gmap string string) := ∅.

Definition GetTraceDict (traceDict : gmap string (gmap string string))
  : gmap string (gmap string string) := traceDict.

(** The condition on the span name in [ExportSpans]. *)
Definition nameKept (n : string) : bool :=
  String.eqb n "call_llm" || String.eqb n "send_data" || String.prefix "execute_tool" n.

(** The map [attributes] that [ExportSpans] builds for one span. *)
Definition spanAttributes (span : ReadOnlySpan) : gmap string string :=
  let attributes :=
    fold_left
      (fun (m : gmap string string) a =>
         <[attribute.Key a := attribute.AsString (attribute.Val a)]> m)
      (Attributes span) ∅ in
  let attributes := <["trace_id" := TraceID span]> attributes in
  let attributes := <["span_id" := SpanID span]> attributes in
  attributes.

(** The body of the loop of [ExportSpans]. *)
Definition exportSpan (traceDict : gmap string (gmap string string))
    (span : ReadOnlySpan) : gmap string (gmap string string) :=
  if nameKept (Name span) then
    let attributes := spanAttributes span in
    match attributes !! "gcp.vertex.agent.event_id" with
    | Some eventID => <[eventID := attributes]> traceDict
    | None => traceDict
    end
  else traceDict.

(** [ExportSpans] always returns a nil error; its result is the store. *)
Definition ExportSpans (traceDict : gmap string (gmap string string))
    (spans : list ReadOnlySpan) : gmap string (gmap string string) :=
  fold_left exportSpan spans traceDict.

(** The store of a new exporter after a sequence of export batches. *)
Definition afterBatches (batches : list (list ReadOnlySpan))
  : gmap string (gmap string string) :=
  fold_left ExportSpans batches NewAPIServerSpanExporter.

End services.

(** ** Package cmd/restapi/handlers: the debug controller *)

Module handlers.

Definition StatusOK : nat := 200.
Definition StatusBadRequest : nat := 400.
Definition StatusNotFound : nat := 404.
Definition StatusInternalServerError : nat := 500.

(** What a handler writes: [http.Error(rw, msg, code)] or
    [EncodeJSONResponse(body, code, rw)] with a string map as body. *)
Inductive Response : Type :=
| Error (msg : string) (code : nat)
| EncodeJSONResponse (body : gmap string string) (code : nat).

(** [TraceDict], given the store of the exporter and [mux.Vars(req)]. *)
Definition TraceDict (traceDict : gmap string (gmap string string))
    (params : gmap string string) : Response :=
  let eventID := default "" (params !! "event_id") in
  if String.eqb eventID "" then
    Error "event_id parameter is required" StatusBadRequest
  else
    match services.GetTraceDict traceDict !! eventID with
    | None => Error ("event not found: " +:+ eventID) StatusNotFound
    | Some eventDict => EncodeJSONResponse eventDict StatusOK
    end.

Definition functionalCalls (event : session.Event.t)
  : slice genai.FunctionCall.t :=
  match session.Event.LLMResponse event with
  | None => None
  | Some r =>
      match model.LLMResponse.Content r with
      | None => None
      | Some c =>
          match genai.Content.Parts c with
          | None => None
          | Some parts => Some (omap genai.Part.FunctionCall parts)
          end
      end
  end.

Definition functionalResponses (event : session.Event.t)
  : slice genai.FunctionResponse.t :=
  match session.Event.LLMResponse event with
  | None => None
  | Some r =>
      match model.LLMResponse.Content r with
      | None => None
      | Some c =>
          match genai.Content.Parts c with
          | None => None
          | Some parts => Some (omap genai.Part.FunctionResponse parts)
          end
      end
  end.

(** One loop of [EventGraph]: append [[f.Name, author]] for every [f]
    whose name is not empty. *)
Fixpoint appendNamed (highlightedPairs : list (list string))
    (names : list string) (author : string) : list (list string) :=
  match names with
  | [] => highlightedPairs
  | n :: rest =>
      if String.eqb n ""
      then appendNamed highlightedPairs rest author
      else appendNamed (highlightedPairs ++ [[n; author]]) rest author
  end.

(** The value of [highlightedPairs] that [EventGraph] computes for the
    event it found. *)
Definition highlightedPairs (event : session.Event.t) : list (list string) :=
  let highlightedPairs := [] in
  let fc := functionalCalls event in
  let fr := functionalResponses event in
  if bool_decide (0 < len fc) then
    appendNamed highlightedPairs (map genai.FunctionCall.Name (elems fc))
      (session.Event.Author event)
  else if bool_decide (0 < len fr) then
    appendNamed highlightedPairs (map genai.FunctionResponse.Name (elems fr))
      (session.Event.Author event)
  else
    highlightedPairs ++ [[session.Event.Author event; session.Event.Author event]].

Section EventGraph.

(** The collaborators of [EventGraph] that live outside the handler. *)
Context {SessionID Agent : Type}.
Variable AppName : SessionID → string.
Variable SessionIDFromHTTPParameters : gmap string string → SessionID + string.
Variable sessionService_Get : SessionID → list session.Event.t + string.
Variable LoadAgent : string → Agent + string.
Variable GetAgentGraph : Agent → list (list string) → string + string.

Definition EventGraph (vars : gmap string string) : Response :=
  match SessionIDFromHTTPParameters vars with
  | inr err => Error err StatusBadRequest
  | inl sessionID =>
      match sessionService_Get sessionID with
      | inr err => Error err StatusBadRequest
      | inl events =>
          let eventID := default "" (vars !! "event_id") in
          if String.eqb eventID "" then
            Error "event_id parameter is required" StatusBadRequest
          else
            match List.find (fun it => String.eqb (session.Event.ID it) eventID)
                            events with
            | None => Error "event not found" StatusNotFound
            | Some event =>
                let highlightedPairs := highlightedPairs event in
                match LoadAgent (AppName sessionID) with
                | inr err => Error err StatusInternalServerError
                | inl agent =>
                    match GetAgentGraph agent highlightedPairs with
                    | inr err => Error err StatusInternalServerError
                    | inl graph =>
                        EncodeJSONResponse {["dotSrc" := graph]} StatusOK
                    end
                end
            end
      end
  end.

End EventGraph.

End handlers.

(** ** Package cmd/restapi/services: the static agent loader *)

Module agentloader.

Section StaticAgentLoader.

Context {Agent : Type}.

(** The field [agents] of [StaticAgentLoader]. *)
Definition NewStaticAgentLoader (agents : gmap string Agent) : gmap string Agent :=
  agents.

(** [ListAgents] ranges over the map; Go leaves the order of that
    iteration open, and the order of [map_to_list] stands for it. *)
Definition ListAgents (agents : gmap string Agent) : list string :=
  fold_left (fun names entry => names ++ [entry.1]) (map_to_list agents) [].

(** [LoadAgent] returns the agent, or the error of [fmt.Errorf]. *)
Definition LoadAgent (agents : gmap string Agent) (name : string) : Agent + string :=
  match agents !! name with
  | None => inr ("agent " +:+ name +:+ " not found")
  | Some agent => inl agent
  end.

End StaticAgentLoader.

End agentloader.

(** ** Package telemetry: the public registration entry point *)

Module adk_telemetry.

(** [RegisterSpanProcessor] hands the processor to the internal package. *)
Definition RegisterSpanProcessor {SpanProcessor : Type} (processor : SpanProcessor)
    (g : telemetry.globals SpanProcessor) : telemetry.globals SpanProcessor :=
  telemetry.AddSpanProcessor processor g.

End adk_telemetry.

(** * Vocabulary of the properties *)

(** ** Registry *)

(** The calls that reach [once.Do]: every call but a registration. *)
Definition initialises {SpanProcessor : Type} (o : telemetry.op SpanProcessor) : bool :=
  match o with
  | telemetry.OpAddSpanProcessor _ => false
  | _ => true
  end.

(** ** Annotators *)

(** What "annotate and close" does to one span. *)
Definition annotated (attributes : list attribute.KeyValue) (span : trace.Span)
  : trace.Span :=
  trace.Span_End (trace.Span_SetAttributes attributes span).

(** The entries of an attribute list under a key, in order. *)
Definition entriesOf (key : string) (attributes : list attribute.KeyValue)
  : list attribute.Value :=
  map attribute.Val (List.filter (fun a => String.eqb (attribute.Key a) key) attributes).

(** The function response of the first response part of an event, if the
    event has a response with content, a first part, and a function
    response in it. *)
Definition firstFunctionResponse (e : session.Event.t)
  : option genai.FunctionResponse.t :=
  llmResponse ← session.Event.LLMResponse e;
  content ← model.LLMResponse.Content llmResponse;
  part0 ← head (elems (genai.Content.Parts content));
  genai.Part.FunctionResponse part0.

(** The tool-call identifier in the words of the specification: the one
    of the first response part's function response, the sentinel when it
    is absent or empty. *)
Definition specToolCallID (e : session.Event.t) : string :=
  match firstFunctionResponse e with
  | Some fr =>
      if decide (genai.FunctionResponse.ID fr = "") then "<not specified>"
      else genai.FunctionResponse.ID fr
  | None => "<not specified>"
  end.

(** The tool response in the words of the specification: the serialised
    [Response] of that function response, the sentinel when absent. *)
Definition specToolResponse (json_Marshal : telemetry.any → telemetry.MarshalResult)
    (e : session.Event.t) : string :=
  match firstFunctionResponse e with
  | Some fr =>
      match genai.FunctionResponse.Response fr with
      | Some r => telemetry.safeSerialize json_Marshal (telemetry.AnyMap (Some r))
      | None => "<not specified>"
      end
  | None => "<not specified>"
  end.

(** What the specification says of [TraceToolCall] on a non-nil event:
    every span is annotated with one attribute list and ended, and that
    list carries the tool-call identifier and the tool response. *)
Definition toolCallAnnotated (json_Marshal : telemetry.any → telemetry.MarshalResult)
    (spans : list trace.Span) (t : tool.Tool)
    (fnArgs : option (gmap string GoValue)) (e : session.Event.t) : Prop :=
  ∃ attributes,
    telemetry.TraceToolCall json_Marshal spans t fnArgs (Some e)
    = telemetry.Returned (map (annotated attributes) spans)
    ∧ entriesOf telemetry.genAiToolCallID attributes
      = [attribute.StringValue (specToolCallID e)]
    ∧ entriesOf "gcp.vertex.agent.tool_response" attributes
      = [attribute.StringValue (specToolResponse json_Marshal e)].

(** ** Trace store *)

(** The span names that [ExportSpans] keeps, as a proposition. *)
Definition keptName (n : string) : Prop :=
  n = "call_llm" ∨ n = "send_data" ∨ ∃ rest, n = "execute_tool" +:+ rest.

(** A span carries an attribute under the given key. *)
Definition hasAttribute (key : string) (span : services.ReadOnlySpan) : Prop :=
  ∃ a, a ∈ services.Attributes span ∧ attribute.Key a = key.

(** Where an entry of the store comes from. *)
Definition arises (eventID : string) (attributes : gmap string string)
    (span : services.ReadOnlySpan) : Prop :=
  keptName (services.Name span)
  ∧ hasAttribute "gcp.vertex.agent.event_id" span
  ∧ attributes = services.spanAttributes span
  ∧ attributes !! "gcp.vertex.agent.event_id" = Some eventID.

(** ** Highlight pairs *)

(** The parts of an event: the parts of the content of its LLM response,
    and none when the response, its content or the part slice is nil. *)
Definition partsOf (event : session.Event.t) : list genai.Part.t :=
  match session.Event.LLMResponse event with
  | Some llmResponse =>
      match model.LLMResponse.Content llmResponse with
      | Some content => elems (genai.Content.Parts content)
      | None => []
      end
  | None => []
  end.

(** The function calls that a list of parts holds, in part order. *)
Fixpoint callsIn (parts : list genai.Part.t) : list genai.FunctionCall.t :=
  match parts with
  | [] => []
  | part :: rest =>
      match genai.Part.FunctionCall part with
      | Some f => f :: callsIn rest
      | None => callsIn rest
      end
  end.

(** The function responses that a list of parts holds, in part order. *)
Fixpoint responsesIn (parts : list genai.Part.t) : list genai.FunctionResponse.t :=
  match parts with
  | [] => []
  | part :: rest =>
      match genai.Part.FunctionResponse part with
      | Some f => f :: responsesIn rest
      | None => responsesIn rest
      end
  end.

(** The function calls and the function responses of an event. *)
Definition callsOf (event : session.Event.t) : list genai.FunctionCall.t :=
  callsIn (partsOf event).

Definition responsesOf (event : session.Event.t) : list genai.FunctionResponse.t :=
  responsesIn (partsOf event).

(** The function calls of an event that have a name, in call order. *)
Definition namedCalls (event : session.Event.t) : list genai.FunctionCall.t :=
  filter (fun f => genai.FunctionCall.Name f ≠ "") (callsOf event).

(** The function responses of an event that have a name, in response
    order. *)
Definition namedResponses (event : session.Event.t) : list genai.FunctionResponse.t :=
  filter (fun f => genai.FunctionResponse.Name f ≠ "") (responsesOf event).

(** ** Sample values *)

(** A tool response event as the tool flow builds it: one part holding the
    function response of the call ["call-7"]. *)
Definition sampleToolEvent : session.Event.t :=
  session.Event.mk "e1" "inv-1" "agent_a"
    (Some (model.LLMResponse.mk
             (Some (genai.Content.mk "user"
                      (Some [genai.Part.mk "" None None
                               (Some (genai.FunctionResponse.mk "call-7" "search"
                                        (Some {["result" := GoString "ok"]})))]))))).

(** An event that carries no LLM response. *)
Definition bareEvent : session.Event.t := session.Event.mk "e2" "inv-1" "agent_a" None.

(** A tool descriptor. *)
Definition searchTool : tool.Tool := tool.mkTool "search" "looks things up".

(** The span of the specification's scenario: ["execute_tool_search"] with
    the attributes [event_id = "e1"] and [foo = "bar"]. *)
Definition toolSpan : services.ReadOnlySpan :=
  services.mkSpan "execute_tool_search"
    [attribute.String "gcp.vertex.agent.event_id" "e1"; attribute.String "foo" "bar"]
    "0af7651916cd43dd8448eb211c80319c" "b7ad6b7169203331".

(** A span of another operation that carries the same event id. *)
Definition agentSpan : services.ReadOnlySpan :=
  services.mkSpan "invoke_agent"
    [attribute.String "gcp.vertex.agent.event_id" "e1"]
    "0af7651916cd43dd8448eb211c80319c" "00f067aa0ba902b7".

(** A second tool span under the event id of [toolSpan]. *)
Definition mergedSpan : services.ReadOnlySpan :=
  services.mkSpan "execute_tool (merged)"
    [attribute.String "gcp.vertex.agent.event_id" "e1"]
    "0af7651916cd43dd8448eb211c80319c" "53995c3f42cd8ad8".

(** An event of the given author whose response content holds the given
    parts. *)
Definition eventOf (author : string) (parts : slice genai.Part.t) : session.Event.t :=
  session.Event.mk "e1" "inv-1" author
    (Some (model.LLMResponse.mk (Some (genai.Content.mk "model" parts)))).

(** Parts that hold a function call, a function response, or text only. *)
Definition callPart (name : string) : genai.Part.t :=
  genai.Part.mk "" None (Some (genai.FunctionCall.mk "" name None)) None.

Definition responsePart (name : string) : genai.Part.t :=
  genai.Part.mk "" None None (Some (genai.FunctionResponse.mk "" name None)).

Definition textPart (text : string) : genai.Part.t := genai.Part.mk text None None None.

(** ** Vocabulary of the further properties *)

(** The processors handed to [AddSpanProcessor] by a sequence of calls, in
    call order. *)
Definition registrations {SpanProcessor : Type} (ops : list (telemetry.op SpanProcessor))
  : list SpanProcessor :=
  omap (fun o => match o with
                 | telemetry.OpAddSpanProcessor p => Some p
                 | _ => None
                 end) ops.

(** The value of the last attribute of a list under a key. *)
Definition lastValue (key : string) (attributes : list attribute.KeyValue)
  : option attribute.Value :=
  last (entriesOf key attributes).

(** The parts of a list that carry no inline data, in their order, each as
    often as it occurs. *)
Fixpoint withoutInlineData (parts : list genai.Part.t) : list genai.Part.t :=
  match parts with
  | [] => []
  | part :: rest =>
      match genai.Part.InlineData part with
      | Some _ => withoutInlineData rest
      | None => part :: withoutInlineData rest
      end
  end.

(** What a call that returned has done to the spans: nothing, or it has
    given every span one and the same attribute list and ended it. *)
Definition returnsAnnotated (spans : list trace.Span) (o : telemetry.outcome) : Prop :=
  ∀ spans', o = telemetry.Returned spans' →
            spans' = spans ∨ ∃ attributes, spans' = map (annotated attributes) spans.

(** The span is one that [ExportSpans] stores under the given event id:
    its name is kept and its attribute map holds that id. *)
Definition writesTo (eventID : string) (span : services.ReadOnlySpan) : bool :=
  services.nameKept (services.Name span)
  && bool_decide (services.spanAttributes span !! "gcp.vertex.agent.event_id"
                  = Some eventID).

(** The three ways an annotator can end: it panics and no span is touched,
    it returns and no span is touched, or it returns and every span has
    received the same attribute list and has been ended. *)
Definition allOrNothing (spans : list trace.Span) (o : telemetry.outcome) : Prop :=
  o = telemetry.Panicked spans
  ∨ o = telemetry.Returned spans
  ∨ ∃ attributes, o = telemetry.Returned (map (annotated attributes) spans).

(** The attribute lists that the three annotators build for an event. *)
Definition annotatorAttributes (json_Marshal : telemetry.any → telemetry.MarshalResult)
    (e : session.Event.t) (attributes : list attribute.KeyValue) : Prop :=
  attributes = telemetry.mergedToolCallAttributes json_Marshal e
  ∨ (∃ t fnArgs, telemetry.toolCallAttributes json_Marshal t fnArgs e = Some attributes)
  ∨ (∃ agentCtx llmRequest,
       telemetry.llmCallAttributes json_Marshal agentCtx llmRequest (Some e)
       = Some attributes).

(** The status code of a response. *)
Definition statusOf (r : handlers.Response) : nat :=
  match r with
  | handlers.Error _ code => code
  | handlers.EncodeJSONResponse _ code => code
  end.

(** An LLM request with a configuration that sets [TopP] and leaves
    [MaxOutputTokens] at zero, and one content holding an image and a
    text. *)
Definition sampleRequest : model.LLMRequest.t :=
  model.LLMRequest.mk "gemini-2.0"
    [genai.Content.mk "user"
       (Some [genai.Part.mk "" (Some (genai.Blob.mk "image/png" [137; 80; 78; 71]%Z)) None None;
              genai.Part.mk "describe this" None None None])]
    (Some (genai.GenerateContentConfig.mk (Some 1064514355%Z) 0%Z)).

(** The processors registered before the first call of a sequence that
    initialises the tracers; [None] when no call of the sequence does. *)
Fixpoint registeredBeforeInit {SpanProcessor : Type}
    (ops : list (telemetry.op SpanProcessor)) : option (list SpanProcessor) :=
  match ops with
  | [] => None
  | telemetry.OpAddSpanProcessor p :: rest => cons p <$> registeredBeforeInit rest
  | _ :: _ => Some []
  end.

(** The span of an LLM call on [sampleRequest], as the SDK hands it to the
    exporter. *)
Definition llmSpan : services.ReadOnlySpan :=
  services.mkSpan "call_llm"
    (default []
       (telemetry.llmCallAttributes telemetry.sampleMarshal (agent.mkContext "session-1")
          (Some sampleRequest) (Some sampleToolEvent)))
    "0af7651916cd43dd8448eb211c80319c" "a3ce929d0e0e4736".

(** The event that [EventGraph] works on: the first event of the session
    with the requested identifier, which is not empty. *)
Definition foundEvent {SessionID : Type}
    (SessionIDFromHTTPParameters : gmap string string → SessionID + string)
    (sessionService_Get : SessionID → list session.Event.t + string)
    (vars : gmap string string) (sessionID : SessionID)
    (event : session.Event.t) : Prop :=
  SessionIDFromHTTPParameters vars = inl sessionID
  ∧ ∃ events eventID,
      sessionService_Get sessionID = inl events
      ∧ vars !! "event_id" = Some eventID ∧ eventID ≠ ""
      ∧ List.find (fun it => String.eqb (session.Event.ID it) eventID) events
        = Some event.

(** An LLM span whose event id attribute is a number, not a string. *)
Definition numberedSpan : services.ReadOnlySpan :=
  services.mkSpan "call_llm"
    [attribute.Int "gcp.vertex.agent.event_id" 7%Z; attribute.String "foo" "bar"]
    "0af7651916cd43dd8448eb211c80319c" "2f6a1c5e9b7d4e10".

(** * Properties *)

(** ** The span-processor registry *)

Section RegistryFacts.

Context {SpanProcessor : Type}.
Implicit Types (g : telemetry.globals SpanProcessor)
               (ps : list SpanProcessor)
               (ops : list (telemetry.op SpanProcessor)).

Lemma RegisterSpanProcessor_fold ps (tp : telemetry.TracerProvider SpanProcessor) :
  fold_left telemetry.RegisterSpanProcessor ps tp
  = telemetry.mkProvider (telemetry.processors tp ++ ps).
Proof.
  revert tp. induction ps as [|p ps IH]; intros [qs]; simpl.
  - by rewrite app_nil_r.
  - rewrite IH. simpl. by rewrite <- app_assoc.
Qed.

Lemma RegisterTelemetry_first g :
  telemetry.once g = false →
  telemetry.RegisterTelemetry g
  = telemetry.mkGlobals true
      (Some (telemetry.mkProvider (telemetry.spanProcessors g)))
      (telemetry.spanProcessors g).
Proof.
  intros Hg. unfold telemetry.RegisterTelemetry. rewrite Hg.
  by rewrite RegisterSpanProcessor_fold.
Qed.

Lemma RegisterTelemetry_again g :
  telemetry.once g = true → telemetry.RegisterTelemetry g = g.
Proof. intros Hg. unfold telemetry.RegisterTelemetry. by rewrite Hg. Qed.

Lemma run_adds ps g :
  telemetry.run (map telemetry.OpAddSpanProcessor ps) g
  = telemetry.mkGlobals (telemetry.once g) (telemetry.localTracer g)
      (telemetry.spanProcessors g ++ ps).
Proof.
  unfold telemetry.run.
  revert g. induction ps as [|p ps IH]; intros [o t l]; simpl.
  - by rewrite app_nil_r.
  - rewrite IH. simpl. by rewrite <- app_assoc.
Qed.

(** A first initialising call on a consistent, uninitialised state
    attaches the registered processors. *)
Lemma step_initialises g o :
  initialises o = true → telemetry.once g = false → telemetry.localTracer g = None →
  telemetry.step g o
  = telemetry.mkGlobals true
      (Some (telemetry.mkProvider (telemetry.spanProcessors g)))
      (telemetry.spanProcessors g).
Proof.
  intros Ho Hg Ht.
  destruct o as [p| | |n]; first done; simpl;
    unfold telemetry.StartTrace, telemetry.getTracers; rewrite ?Ht; simpl;
    by rewrite RegisterTelemetry_first.
Qed.

(** Once the provider exists and the guard has fired, no call changes
    the provider. *)
Lemma step_sealed g o tp :
  telemetry.once g = true → telemetry.localTracer g = Some tp →
  telemetry.once (telemetry.step g o) = true
  ∧ telemetry.localTracer (telemetry.step g o) = Some tp.
Proof.
  intros Hg Ht.
  destruct o as [p| | |n]; simpl;
    unfold telemetry.StartTrace, telemetry.getTracers; rewrite ?Ht; simpl;
    rewrite ?RegisterTelemetry_again; auto.
Qed.

Lemma run_sealed ops g tp :
  telemetry.once g = true → telemetry.localTracer g = Some tp →
  telemetry.localTracer (telemetry.run ops g) = Some tp.
Proof.
  revert g. induction ops as [|o ops IH]; intros g Hg Ht; first done.
  destruct (step_sealed g o tp Hg Ht) as [Hg' Ht'].
  exact (IH _ Hg' Ht').
Qed.

Lemma run_app ops1 ops2 g :
  telemetry.run (ops1 ++ ops2) g = telemetry.run ops2 (telemetry.run ops1 g).
Proof. apply fold_left_app. Qed.

(** C2. Starting from the initial package state, after any number of
    [AddSpanProcessor] calls no provider exists yet; the first call that
    initialises the tracers ([RegisterTelemetry], [getTracers] or
    [StartTrace]) attaches exactly the processors registered so far, in
    registration order, and whatever calls follow, registrations
    included, leave the attached processors unchanged. *)
Theorem attached_is_registered_before_first_init ps first later :
  initialises first = true →
  telemetry.attached
    (telemetry.run (map telemetry.OpAddSpanProcessor ps) telemetry.initial) = None
  ∧ telemetry.attached
      (telemetry.run (map telemetry.OpAddSpanProcessor ps ++ first :: later)
         telemetry.initial) = Some ps.
Proof.
  intros Hfirst. rewrite run_app, run_adds. simpl. split; first done.
  set (g := telemetry.mkGlobals false None ps).
  change (telemetry.run (first :: later) g)
    with (telemetry.run later (telemetry.step g first)).
  rewrite (step_initialises g first Hfirst eq_refl eq_refl).
  unfold telemetry.attached.
  by rewrite (run_sealed later _ (telemetry.mkProvider ps))
    by reflexivity.
Qed.

(** A late registration reaches the configuration list only. *)
Lemma late_registration_not_attached ops g tp p :
  telemetry.once g = true → telemetry.localTracer g = Some tp →
  telemetry.attached (telemetry.run (telemetry.OpAddSpanProcessor p :: ops) g)
  = Some (telemetry.processors tp).
Proof.
  intros Hg Ht. unfold telemetry.attached.
  by rewrite (run_sealed _ g tp Hg Ht).
Qed.

End RegistryFacts.

Lemma attached_is_registered_before_first_init_witness :
  telemetry.attached
    (telemetry.run (map telemetry.OpAddSpanProcessor [1; 2]) telemetry.initial) = None
  ∧ telemetry.attached
      (telemetry.run
         (map telemetry.OpAddSpanProcessor [1; 2]
            ++ telemetry.OpStartTrace "call_llm"
            :: [telemetry.OpAddSpanProcessor 3; telemetry.OpGetTracers])
         telemetry.initial) = Some [1; 2].
Proof.
  apply (attached_is_registered_before_first_init [1; 2]
           (telemetry.OpStartTrace "call_llm")
           [telemetry.OpAddSpanProcessor 3; telemetry.OpGetTracers]).
  reflexivity.
Defined.

(** ** The span annotators *)

Section AnnotatorFacts.

Variable json_Marshal : telemetry.any → telemetry.MarshalResult.

Lemma rangeSpans_total body spans :
  (∀ span, is_Some (body span)) →
  telemetry.rangeSpans body spans
  = telemetry.Returned (map (fun span => default span (body span)) spans).
Proof.
  intros Hbody. induction spans as [|span rest IH]; first done.
  simpl. destruct (Hbody span) as [span' ->]. by rewrite IH.
Qed.

Lemma rangeSpans_panics body span rest :
  body span = None →
  telemetry.rangeSpans body (span :: rest) = telemetry.Panicked (span :: rest).
Proof. intros H. simpl. by rewrite H. Qed.

Lemma TraceMergedToolCalls_nil spans :
  telemetry.TraceMergedToolCalls json_Marshal spans None = telemetry.Returned spans.
Proof. reflexivity. Qed.

Lemma TraceToolCall_nil spans t fnArgs :
  telemetry.TraceToolCall json_Marshal spans t fnArgs None = telemetry.Returned spans.
Proof. reflexivity. Qed.

Lemma TraceLLMCall_no_spans agentCtx llmRequest event :
  telemetry.TraceLLMCall json_Marshal [] agentCtx llmRequest event
  = telemetry.Returned [].
Proof. reflexivity. Qed.

Lemma llmCallAttributes_nil agentCtx llmRequest :
  telemetry.llmCallAttributes json_Marshal agentCtx llmRequest None = None.
Proof. by destruct llmRequest. Qed.

(** C1. With a nil result event, [TraceToolCall] and
    [TraceMergedToolCalls] return and leave every span as it was, and so
    does [TraceLLMCall] on an empty span list; on a span list that is not
    empty [TraceLLMCall] has no such guard: it reads through the nil
    event and panics, before any span is touched. *)
Theorem nil_event_TraceLLMCall_panics spans span t fnArgs agentCtx llmRequest :
  telemetry.TraceToolCall json_Marshal spans t fnArgs None = telemetry.Returned spans
  ∧ telemetry.TraceMergedToolCalls json_Marshal spans None = telemetry.Returned spans
  ∧ telemetry.TraceLLMCall json_Marshal [] agentCtx llmRequest None
    = telemetry.Returned []
  ∧ telemetry.TraceLLMCall json_Marshal (span :: spans) agentCtx llmRequest None
    = telemetry.Panicked (span :: spans).
Proof.
  repeat split.
  apply rangeSpans_panics. by rewrite llmCallAttributes_nil.
Qed.

(** C9. [safeSerialize] is a total function to strings: whatever
    [json.Marshal] does on the value, the result is the marshalled text
    when marshalling succeeds and the sentinel ["<not serializable>"] when
    it fails, and the error itself is dropped. *)
Theorem safeSerialize_never_fails (obj : telemetry.any) :
  (∃ dump, json_Marshal obj = telemetry.MarshalOk dump
           ∧ telemetry.safeSerialize json_Marshal obj = dump)
  ∨ (∃ err, json_Marshal obj = telemetry.MarshalErr err
            ∧ telemetry.safeSerialize json_Marshal obj = "<not serializable>").
Proof.
  unfold telemetry.safeSerialize.
  destruct (json_Marshal obj) as [dump|err]; [left|right]; eauto.
Qed.

(** C10. For a non-nil event, [TraceMergedToolCalls] sets one attribute
    list on every span and ends it; that list holds the key
    ["gcp.vertex.agent.llm_request"] twice, both times with the value
    ["{}"], and does not hold the key ["gcp.vertex.agent.llm_response"]. *)
Theorem merged_tool_calls_request_key_twice spans (e : session.Event.t) :
  telemetry.TraceMergedToolCalls json_Marshal spans (Some e)
  = telemetry.Returned
      (map (annotated (telemetry.mergedToolCallAttributes json_Marshal e)) spans)
  ∧ entriesOf "gcp.vertex.agent.llm_request"
      (telemetry.mergedToolCallAttributes json_Marshal e)
    = [attribute.StringValue "{}"; attribute.StringValue "{}"]
  ∧ entriesOf "gcp.vertex.agent.llm_response"
      (telemetry.mergedToolCallAttributes json_Marshal e) = [].
Proof.
  split; last by split.
  unfold telemetry.TraceMergedToolCalls.
  by rewrite rangeSpans_total by eauto.
Qed.

Lemma toolCallAttributes_entries t fnArgs e llmResponse content :
  session.Event.LLMResponse e = Some llmResponse →
  model.LLMResponse.Content llmResponse = Some content →
  ∃ attributes,
    telemetry.toolCallAttributes json_Marshal t fnArgs e = Some attributes
    ∧ entriesOf telemetry.genAiToolCallID attributes
      = [attribute.StringValue (specToolCallID e)]
    ∧ entriesOf "gcp.vertex.agent.tool_response" attributes
      = [attribute.StringValue (specToolResponse json_Marshal e)].
Proof.
  intros Hr Hc.
  unfold telemetry.toolCallAttributes, specToolCallID, specToolResponse,
    firstFunctionResponse.
  rewrite Hr. simpl. rewrite Hc. simpl.
  destruct (elems (genai.Content.Parts content)) as [|part0 rest]; simpl.
  { eexists. split; first done. by split. }
  destruct (genai.Part.FunctionResponse part0) as [fr|]; simpl.
  2: { eexists. split; first done. by split. }
  destruct (genai.FunctionResponse.Response fr) as [r|];
    (destruct (decide (genai.FunctionResponse.ID fr = "")) as [Hid|Hid];
     [ rewrite (proj2 (String.eqb_eq _ _) Hid)
     | rewrite (proj2 (String.eqb_neq _ _) Hid) ]);
    eexists; (split; first done); by split.
Qed.

(** On an event whose LLM response and content are present,
    [TraceToolCall] annotates and ends every span with one attribute list,
    in which [gen_ai.tool.call.id] is the identifier of the first response
    part's function response, or ["<not specified>"] when there is no such
    part, no function response in it, or the identifier is empty, and in
    which [gcp.vertex.agent.tool_response] is the serialised [Response] of
    that function response, or the same sentinel when absent. *)
Lemma tool_call_id_and_response spans t fnArgs e llmResponse content :
  session.Event.LLMResponse e = Some llmResponse →
  model.LLMResponse.Content llmResponse = Some content →
  toolCallAnnotated json_Marshal spans t fnArgs e.
Proof.
  intros Hr Hc.
  destruct (toolCallAttributes_entries t fnArgs e _ _ Hr Hc)
    as (attributes & Hattr & Hid & Hresp).
  exists attributes. split; last done.
  unfold telemetry.TraceToolCall.
  rewrite rangeSpans_total.
  - f_equal. apply map_ext. intros span. by rewrite Hattr.
  - intros span. rewrite Hattr. eauto.
Qed.

End AnnotatorFacts.

Lemma tool_call_id_and_response_witness :
  toolCallAnnotated telemetry.sampleMarshal
    [trace.Start "execute_tool search"; trace.Start "execute_tool search"]
    searchTool None sampleToolEvent.
Proof.
  eapply (tool_call_id_and_response telemetry.sampleMarshal _ searchTool None
            sampleToolEvent); reflexivity.
Defined.

(** C7. [TraceToolCall] is to attach the tool-call identifier and the tool
    response, with the sentinel ["<not specified>"] for what is absent, for
    every event that is not nil. On an event that is not nil but carries no
    LLM response it does not: it reads
    [fnResponseEvent.LLMResponse.Content] through the nil pointer and
    panics before any attribute is set, so that no span is annotated. *)
Theorem tool_call_without_response_panics :
  telemetry.TraceToolCall telemetry.sampleMarshal
    [trace.Start "execute_tool search"; trace.Start "execute_tool search"]
    searchTool None (Some bareEvent)
  = telemetry.Panicked
      [trace.Start "execute_tool search"; trace.Start "execute_tool search"]
  ∧ ¬ toolCallAnnotated telemetry.sampleMarshal
        [trace.Start "execute_tool search"; trace.Start "execute_tool search"]
        searchTool None bareEvent.
Proof.
  split; first reflexivity.
  intros (attributes & Hret & _). discriminate Hret.
Qed.

(** ** The trace store *)

Section StoreFacts.

Implicit Types (traceDict : gmap string (gmap string string))
               (span : services.ReadOnlySpan)
               (spans : list services.ReadOnlySpan)
               (batches : list (list services.ReadOnlySpan)).

Lemma prefix_app (p n : string) :
  String.prefix p n = true ↔ ∃ rest, n = p +:+ rest.
Proof.
  revert n. induction p as [|c p IH]; intros [|d n].
  - split; [by exists "" | done].
  - split; [by exists (String d n) | done].
  - split; first done. intros [rest Hrest]. discriminate Hrest.
  - change (String.prefix (String c p) (String d n))
      with (if Ascii.ascii_dec c d then String.prefix p n else false).
    destruct (Ascii.ascii_dec c d) as [->|Hne].
    + rewrite IH. split; intros [rest Hrest]; exists rest.
      * by rewrite Hrest.
      * by injection Hrest.
    + split; first done. intros [rest Hrest]. injection Hrest. congruence.
Qed.

Lemma nameKept_spec n : services.nameKept n = true ↔ keptName n.
Proof.
  unfold services.nameKept, keptName.
  rewrite !orb_true_iff, !String.eqb_eq, prefix_app. tauto.
Qed.

(** A key of the folded attribute map comes from the start map or from
    one of the attributes. *)
Lemma fold_attributes_lookup (l : list attribute.KeyValue)
    (m : gmap string string) key v :
  fold_left
    (fun (m : gmap string string) a =>
       <[attribute.Key a := attribute.AsString (attribute.Val a)]> m) l m
    !! key = Some v →
  m !! key = Some v ∨ ∃ a, a ∈ l ∧ attribute.Key a = key.
Proof.
  revert m. induction l as [|a l IH]; intros m; simpl; first by left.
  intros H. destruct (IH _ H) as [Hm|(b & Hb & Hkey)].
  - destruct (decide (attribute.Key a = key)) as [Heq|Hne].
    + right. exists a. split; [left|done].
    + left. by rewrite lookup_insert_ne in Hm.
  - right. exists b. split; [by right|done].
Qed.

Lemma spanAttributes_ids span :
  services.spanAttributes span !! "trace_id" = Some (services.TraceID span)
  ∧ services.spanAttributes span !! "span_id" = Some (services.SpanID span).
Proof.
  unfold services.spanAttributes. split.
  - rewrite lookup_insert_ne by done. apply lookup_insert_eq.
  - apply lookup_insert_eq.
Qed.

Lemma spanAttributes_event_id span eventID :
  services.spanAttributes span !! "gcp.vertex.agent.event_id" = Some eventID →
  hasAttribute "gcp.vertex.agent.event_id" span.
Proof.
  unfold services.spanAttributes.
  rewrite !lookup_insert_ne by done.
  intros H. apply fold_attributes_lookup in H as [H|H]; last done.
  by rewrite lookup_empty in H.
Qed.

Lemma exportSpan_lookup traceDict span eventID attributes :
  services.exportSpan traceDict span !! eventID = Some attributes →
  traceDict !! eventID = Some attributes ∨ arises eventID attributes span.
Proof.
  unfold services.exportSpan.
  destruct (services.nameKept (services.Name span)) eqn:Hname; last by left.
  destruct (services.spanAttributes span !! "gcp.vertex.agent.event_id")
    as [e|] eqn:He; last by left.
  destruct (decide (e = eventID)) as [->|Hne].
  - rewrite lookup_insert_eq. intros [= <-]. right.
    split; first by apply nameKept_spec.
    split; first by eapply spanAttributes_event_id.
    done.
  - rewrite lookup_insert_ne by done. by left.
Qed.

Lemma ExportSpans_lookup spans traceDict eventID attributes :
  services.ExportSpans traceDict spans !! eventID = Some attributes →
  traceDict !! eventID = Some attributes
  ∨ ∃ span, span ∈ spans ∧ arises eventID attributes span.
Proof.
  unfold services.ExportSpans.
  revert traceDict. induction spans as [|span spans IH]; intros traceDict; simpl.
  { by left. }
  intros H. destruct (IH _ H) as [Hd|(s & Hs & Hfrom)].
  - apply exportSpan_lookup in Hd as [Hd|Hd]; first by left.
    right. exists span. split; [left|done].
  - right. exists s. split; [by right|done].
Qed.

Lemma batches_lookup batches traceDict eventID attributes :
  fold_left services.ExportSpans batches traceDict !! eventID = Some attributes →
  traceDict !! eventID = Some attributes
  ∨ ∃ span, span ∈ concat batches ∧ arises eventID attributes span.
Proof.
  revert traceDict. induction batches as [|spans batches IH]; intros traceDict; simpl.
  { by left. }
  intros H. destruct (IH _ H) as [Hd|(s & Hs & Hfrom)].
  - apply ExportSpans_lookup in Hd as [Hd|(s & Hs & Hfrom)]; first by left.
    right. exists s. split; [|done]. apply elem_of_app. by left.
  - right. exists s. split; [|done]. apply elem_of_app. by right.
Qed.

(** C5. After any sequence of export batches on a new exporter, every
    entry of the trace store is the attribute map of an exported span
    whose name is ["call_llm"] or ["send_data"] or starts with
    ["execute_tool"] and whose attributes hold the key
    ["gcp.vertex.agent.event_id"], stored under the value of that key; and
    the entry holds the keys ["trace_id"] and ["span_id"], as the map built
    for any span does, one without attributes included. *)
Theorem store_entries_from_kept_spans batches eventID attributes :
  services.afterBatches batches !! eventID = Some attributes →
  (∃ span, span ∈ concat batches ∧ arises eventID attributes span)
  ∧ is_Some (attributes !! "trace_id")
  ∧ is_Some (attributes !! "span_id")
  ∧ ∀ span', services.Attributes span' = [] →
      services.spanAttributes span'
      = {[ "trace_id" := services.TraceID span'; "span_id" := services.SpanID span' ]}.
Proof.
  intros H. unfold services.afterBatches, services.NewAPIServerSpanExporter in H.
  apply batches_lookup in H as [H|(span & Hspan & Hfrom)].
  { by rewrite lookup_empty in H. }
  split; first by eauto.
  destruct Hfrom as (_ & _ & -> & _).
  destruct (spanAttributes_ids span) as [-> ->].
  repeat split; eauto.
  intros span' Hnil. unfold services.spanAttributes. rewrite Hnil. simpl.
  apply map_eq. intros k.
  destruct (decide (k = "span_id")) as [->|Hs].
  - rewrite lookup_insert_eq. rewrite lookup_insert_ne by done.
    by rewrite lookup_singleton_eq.
  - rewrite lookup_insert_ne by done.
    destruct (decide (k = "trace_id")) as [->|Ht].
    + by rewrite !lookup_insert_eq.
    + rewrite !lookup_insert_ne by done.
      rewrite lookup_singleton_ne by done. done.
Qed.

End StoreFacts.

Section StoreOverwrite.

Implicit Types (traceDict : gmap string (gmap string string))
               (span : services.ReadOnlySpan)
               (spans : list services.ReadOnlySpan).

Lemma exportSpan_kept traceDict span eventID :
  keptName (services.Name span) →
  services.spanAttributes span !! "gcp.vertex.agent.event_id" = Some eventID →
  services.exportSpan traceDict span
  = <[eventID := services.spanAttributes span]> traceDict.
Proof.
  intros Hname He. unfold services.exportSpan.
  rewrite (proj2 (nameKept_spec _) Hname). simpl. by rewrite He.
Qed.

Lemma exportSpan_dropped traceDict span :
  services.nameKept (services.Name span) = false →
  services.exportSpan traceDict span = traceDict.
Proof. intros Hname. unfold services.exportSpan. by rewrite Hname. Qed.

Lemma ExportSpans_snoc traceDict spans span :
  services.ExportSpans traceDict (spans ++ [span])
  = services.exportSpan (services.ExportSpans traceDict spans) span.
Proof. unfold services.ExportSpans. by rewrite fold_left_app. Qed.

(** The last kept span of a batch that carries an event id decides the
    entry under that id. *)
Lemma ExportSpans_last_write_wins traceDict spans span eventID :
  keptName (services.Name span) →
  services.spanAttributes span !! "gcp.vertex.agent.event_id" = Some eventID →
  services.ExportSpans traceDict (spans ++ [span]) !! eventID
  = Some (services.spanAttributes span).
Proof.
  intros Hname He. rewrite ExportSpans_snoc.
  rewrite (exportSpan_kept _ _ _ Hname He). apply lookup_insert_eq.
Qed.

(** C6, amended. For every state of the trace store and every exported
    span whose name the exporter keeps (["call_llm"], ["send_data"] or a
    name starting with ["execute_tool"]) and that carries an event id
    already present as a key, [ExportSpans] replaces the map stored under
    that key by the map of the new span, whatever the prior map held, and
    leaves every other key as it was. *)
Theorem reexport_overwrites traceDict span eventID prior :
  traceDict !! eventID = Some prior →
  keptName (services.Name span) →
  services.spanAttributes span !! "gcp.vertex.agent.event_id" = Some eventID →
  services.ExportSpans traceDict [span] !! eventID
  = Some (services.spanAttributes span)
  ∧ ∀ other, other ≠ eventID →
      services.ExportSpans traceDict [span] !! other = traceDict !! other.
Proof.
  intros _ Hname He. split.
  - exact (ExportSpans_last_write_wins traceDict [] span eventID Hname He).
  - intros other Hother. unfold services.ExportSpans. simpl.
    rewrite (exportSpan_kept _ _ _ Hname He).
    by rewrite lookup_insert_ne.
Qed.

End StoreOverwrite.

Lemma store_entries_from_kept_spans_witness :
  (∃ span, span ∈ concat [[agentSpan; toolSpan]]
           ∧ arises "e1" (services.spanAttributes toolSpan) span)
  ∧ is_Some (services.spanAttributes toolSpan !! "trace_id")
  ∧ is_Some (services.spanAttributes toolSpan !! "span_id")
  ∧ ∀ span', services.Attributes span' = [] →
      services.spanAttributes span'
      = {[ "trace_id" := services.TraceID span'; "span_id" := services.SpanID span' ]}.
Proof.
  apply (store_entries_from_kept_spans [[agentSpan; toolSpan]] "e1").
  vm_compute. reflexivity.
Defined.

Lemma reexport_overwrites_witness :
  services.ExportSpans (services.afterBatches [[toolSpan]]) [mergedSpan] !! "e1"
  = Some (services.spanAttributes mergedSpan)
  ∧ ∀ other, other ≠ "e1" →
      services.ExportSpans (services.afterBatches [[toolSpan]]) [mergedSpan] !! other
      = services.afterBatches [[toolSpan]] !! other.
Proof.
  apply (reexport_overwrites (services.afterBatches [[toolSpan]]) mergedSpan "e1"
           (services.spanAttributes toolSpan)).
  - vm_compute. reflexivity.
  - right. right. by exists " (merged)".
  - vm_compute. reflexivity.
Defined.

(** C6 as stated fails: [agentSpan] carries the event id ["e1"], which is
    a key of the store, yet exporting it leaves the stored map as it was,
    because the exporter drops the span for its name. *)
Lemma reexport_of_dropped_span_keeps_prior :
  services.spanAttributes agentSpan !! "gcp.vertex.agent.event_id" = Some "e1"
  ∧ services.afterBatches [[toolSpan]] !! "e1" = Some (services.spanAttributes toolSpan)
  ∧ services.ExportSpans (services.afterBatches [[toolSpan]]) [agentSpan] !! "e1"
    = Some (services.spanAttributes toolSpan)
  ∧ services.spanAttributes toolSpan ≠ services.spanAttributes agentSpan.
Proof.
  repeat split; try (vm_compute; reflexivity).
  intros H. apply (f_equal (fun m : gmap string string => m !! "foo")) in H.
  vm_compute in H. discriminate H.
Qed.

(** ** The debug handlers *)

Section HandlerFacts.

Implicit Types (event : session.Event.t) (names : list string).

Lemma appendNamed_spec acc names author :
  handlers.appendNamed acc names author
  = acc ++ map (fun n => [n; author]) (filter (fun n => n ≠ "") names).
Proof.
  revert acc. induction names as [|n names IH]; intros acc; simpl.
  - by rewrite app_nil_r.
  - destruct (decide (n = "")) as [->|Hn].
    + rewrite IH. by rewrite filter_cons_False by naive_solver.
    + rewrite (proj2 (String.eqb_neq _ _) Hn), IH.
      rewrite filter_cons_True by done. simpl. by rewrite <- app_assoc.
Qed.

Lemma filter_names {A} (name : A → string) (l : list A) :
  filter (fun n => n ≠ "") (map name l) = map name (filter (fun x => name x ≠ "") l).
Proof.
  induction l as [|x l IH]; first done. simpl.
  destruct (decide (name x = "")) as [Hx|Hx].
  - rewrite !filter_cons_False by naive_solver. done.
  - rewrite !filter_cons_True by done. simpl. by rewrite IH.
Qed.

Lemma callsIn_omap (parts : list genai.Part.t) :
  omap genai.Part.FunctionCall parts = callsIn parts.
Proof.
  induction parts as [|part parts IH]; first done.
  simpl. rewrite <- IH. by destruct (genai.Part.FunctionCall part).
Qed.

Lemma responsesIn_omap (parts : list genai.Part.t) :
  omap genai.Part.FunctionResponse parts = responsesIn parts.
Proof.
  induction parts as [|part parts IH]; first done.
  simpl. rewrite <- IH. by destruct (genai.Part.FunctionResponse part).
Qed.

(** What [functionalCalls] extracts is every function call of the parts of
    the event, in part order, whatever else the parts hold. *)
Lemma functionalCalls_parts event :
  elems (handlers.functionalCalls event) = callsOf event.
Proof.
  unfold handlers.functionalCalls, callsOf, partsOf.
  destruct (session.Event.LLMResponse event) as [r|]; last done.
  destruct (model.LLMResponse.Content r) as [c|]; last done.
  destruct (genai.Content.Parts c) as [parts|]; last done.
  apply callsIn_omap.
Qed.

(** What [functionalResponses] extracts is every function response of the
    parts of the event, in part order, whatever else the parts hold. *)
Lemma functionalResponses_parts event :
  elems (handlers.functionalResponses event) = responsesOf event.
Proof.
  unfold handlers.functionalResponses, responsesOf, partsOf.
  destruct (session.Event.LLMResponse event) as [r|]; last done.
  destruct (model.LLMResponse.Content r) as [c|]; last done.
  destruct (genai.Content.Parts c) as [parts|]; last done.
  apply responsesIn_omap.
Qed.

Lemma len_elems {A} (s : slice A) : len s = length (elems s).
Proof. by destruct s. Qed.

Lemma highlightedPairs_calls event :
  callsOf event ≠ [] →
  handlers.highlightedPairs event
  = map (fun f => [genai.FunctionCall.Name f; session.Event.Author event])
      (namedCalls event).
Proof.
  intros Hfc. unfold handlers.highlightedPairs, namedCalls.
  rewrite len_elems, !functionalCalls_parts.
  rewrite bool_decide_eq_true_2 by (destruct (callsOf event); [done|simpl; lia]).
  rewrite appendNamed_spec, filter_names. simpl. by rewrite map_map.
Qed.

Lemma highlightedPairs_responses event :
  callsOf event = [] →
  responsesOf event ≠ [] →
  handlers.highlightedPairs event
  = map (fun f => [genai.FunctionResponse.Name f; session.Event.Author event])
      (namedResponses event).
Proof.
  intros Hfc Hfr. unfold handlers.highlightedPairs, namedResponses.
  rewrite !len_elems, functionalCalls_parts, !functionalResponses_parts, Hfc.
  rewrite bool_decide_eq_false_2 by (simpl; lia).
  rewrite bool_decide_eq_true_2 by (destruct (responsesOf event); [done|simpl; lia]).
  rewrite appendNamed_spec, filter_names. simpl. by rewrite map_map.
Qed.

Lemma highlightedPairs_neither event :
  callsOf event = [] →
  responsesOf event = [] →
  handlers.highlightedPairs event
  = [[session.Event.Author event; session.Event.Author event]].
Proof.
  intros Hfc Hfr. unfold handlers.highlightedPairs.
  rewrite !len_elems, functionalCalls_parts, functionalResponses_parts, Hfc, Hfr.
  by rewrite !bool_decide_eq_false_2 by (simpl; lia).
Qed.

Lemma named_nonempty {A} (P : A → Prop) `{∀ x, Decision (P x)} (l : list A) :
  (1 ≤ length (filter P l))%nat → l ≠ [].
Proof. intros Hl ->. simpl in Hl. lia. Qed.

(** C3. For an event whose parts hold N >= 1 function calls that have a
    name, the highlight pairs are exactly the N pairs
    [call.Name, event.Author] of those calls, in part order; the function
    responses of the event play no part: an event whose parts hold the
    same function calls, whatever else they hold, and that has the same
    author has the same pairs. *)
Theorem calls_give_pairs event :
  (1 ≤ length (namedCalls event))%nat →
  handlers.highlightedPairs event
  = map (fun f => [genai.FunctionCall.Name f; session.Event.Author event])
      (namedCalls event)
  ∧ length (handlers.highlightedPairs event) = length (namedCalls event)
  ∧ ∀ event',
      callsOf event' = callsOf event →
      session.Event.Author event' = session.Event.Author event →
      handlers.highlightedPairs event' = handlers.highlightedPairs event.
Proof.
  intros HN.
  assert (callsOf event ≠ []) as Hfc by (eapply named_nonempty; exact HN).
  rewrite (highlightedPairs_calls event Hfc).
  split; first done. split; first by rewrite length_map.
  intros event' Hcalls Hauthor.
  rewrite highlightedPairs_calls by (by rewrite Hcalls).
  unfold namedCalls. by rewrite Hcalls, Hauthor.
Qed.

(** C4. For an event whose parts hold no function call: if they hold
    M >= 1 function responses that have a name, the highlight pairs are
    exactly the M pairs [response.Name, event.Author], in part order; if
    they hold no function response either, the highlight pairs are the
    single pair [event.Author, event.Author]. *)
Theorem responses_or_self_pair event :
  callsOf event = [] →
  ((1 ≤ length (namedResponses event))%nat →
   handlers.highlightedPairs event
   = map (fun f => [genai.FunctionResponse.Name f; session.Event.Author event])
       (namedResponses event)
   ∧ length (handlers.highlightedPairs event) = length (namedResponses event))
  ∧ (responsesOf event = [] →
     handlers.highlightedPairs event
     = [[session.Event.Author event; session.Event.Author event]]).
Proof.
  intros Hfc. split.
  - intros HM.
    assert (responsesOf event ≠ []) as Hfr by (eapply named_nonempty; exact HM).
    rewrite (highlightedPairs_responses event Hfc Hfr).
    split; first done. by rewrite length_map.
  - intros Hfr. by apply highlightedPairs_neither.
Qed.

(** C8. The trace endpoint answers: 400 with the message
    ["event_id parameter is required"] when the [event_id] parameter is
    empty or missing; otherwise 404 when the trace store has no entry for
    it; otherwise 200 with the stored attribute map as the JSON body. *)
Theorem TraceDict_status (traceDict : gmap string (gmap string string))
    (params : gmap string string) (eventID : string) :
  (default "" (params !! "event_id") = "" →
   handlers.TraceDict traceDict params
   = handlers.Error "event_id parameter is required" 400)
  ∧ (params !! "event_id" = Some eventID → eventID ≠ "" →
     traceDict !! eventID = None →
     ∃ msg, handlers.TraceDict traceDict params = handlers.Error msg 404)
  ∧ (∀ eventDict,
       params !! "event_id" = Some eventID → eventID ≠ "" →
       traceDict !! eventID = Some eventDict →
       handlers.TraceDict traceDict params
       = handlers.EncodeJSONResponse eventDict 200).
Proof.
  unfold handlers.TraceDict, services.GetTraceDict.
  split; [|split].
  - intros ->. reflexivity.
  - intros -> Hne Hnone. simpl.
    rewrite (proj2 (String.eqb_neq _ _) Hne), Hnone. eauto.
  - intros eventDict -> Hne Hsome. simpl.
    by rewrite (proj2 (String.eqb_neq _ _) Hne), Hsome.
Qed.

End HandlerFacts.

(** The scenario of the specification: a call of ["search"] by
    ["agent_a"]. *)
Example search_call_pairs :
  handlers.highlightedPairs (eventOf "agent_a" (Some [callPart "search"]))
  = [["search"; "agent_a"]].
Proof. reflexivity. Qed.

(** Calls without a name are skipped, also when no pair is left. *)
Example unnamed_call_pairs :
  handlers.highlightedPairs (eventOf "agent_a" (Some [callPart ""; responsePart "r"]))
  = [].
Proof. reflexivity. Qed.

Lemma calls_give_pairs_witness :
  handlers.highlightedPairs
    (eventOf "agent_a"
       (Some [callPart "search"; responsePart "lookup"; callPart ""; callPart "fetch"]))
  = [["search"; "agent_a"]; ["fetch"; "agent_a"]].
Proof.
  apply (proj1 (calls_give_pairs
                  (eventOf "agent_a"
                     (Some [callPart "search"; responsePart "lookup"; callPart "";
                            callPart "fetch"]))
                  ltac:(vm_compute; lia))).
Defined.

Lemma responses_or_self_pair_witness :
  handlers.highlightedPairs
    (eventOf "agent_a" (Some [responsePart "lookup"; textPart "done"; responsePart "fetch"]))
  = [["lookup"; "agent_a"]; ["fetch"; "agent_a"]]
  ∧ handlers.highlightedPairs (eventOf "agent_a" (Some [textPart "hello"]))
    = [["agent_a"; "agent_a"]]
  ∧ handlers.highlightedPairs (session.Event.mk "e3" "inv-1" "agent_b" None)
    = [["agent_b"; "agent_b"]].
Proof.
  split; [|split].
  - apply (proj1 (proj1 (responses_or_self_pair
                           (eventOf "agent_a"
                              (Some [responsePart "lookup"; textPart "done";
                                     responsePart "fetch"]))
                           eq_refl)
                    ltac:(vm_compute; lia))).
  - apply (proj2 (responses_or_self_pair (eventOf "agent_a" (Some [textPart "hello"]))
                    eq_refl) eq_refl).
  - apply (proj2 (responses_or_self_pair (session.Event.mk "e3" "inv-1" "agent_b" None)
                    eq_refl) eq_refl).
Defined.

Lemma TraceDict_status_witness :
  handlers.TraceDict (services.afterBatches [[toolSpan]]) ∅
  = handlers.Error "event_id parameter is required" 400
  ∧ (∃ msg, handlers.TraceDict (services.afterBatches [[toolSpan]]) {["event_id" := "e9"]}
            = handlers.Error msg 404)
  ∧ handlers.TraceDict (services.afterBatches [[toolSpan]]) {["event_id" := "e1"]}
    = handlers.EncodeJSONResponse (services.spanAttributes toolSpan) 200.
Proof.
  split; [|split].
  - apply (proj1 (TraceDict_status (services.afterBatches [[toolSpan]]) ∅ "")).
    reflexivity.
  - apply (proj1 (proj2 (TraceDict_status (services.afterBatches [[toolSpan]])
                           {["event_id" := "e9"]} "e9"))).
    + reflexivity.
    + discriminate.
    + vm_compute. reflexivity.
  - apply (proj2 (proj2 (TraceDict_status (services.afterBatches [[toolSpan]])
                           {["event_id" := "e1"]} "e1"))).
    + reflexivity.
    + discriminate.
    + vm_compute. reflexivity.
Defined.

(** The store of the specification's scenario. *)
Example tool_span_store :
  services.afterBatches [[toolSpan]]
  = {[ "e1" := {[ "gcp.vertex.agent.event_id" := "e1"; "foo" := "bar";
                  "trace_id" := "0af7651916cd43dd8448eb211c80319c";
                  "span_id" := "b7ad6b7169203331" ]} ]}.
Proof. vm_compute. reflexivity. Qed.

(** The values of the two attributes on the sample tool event. *)
Example sample_tool_call_entries :
  (entriesOf telemetry.genAiToolCallID
     <$> telemetry.toolCallAttributes telemetry.sampleMarshal searchTool None
           sampleToolEvent)
  = Some [attribute.StringValue "call-7"]
  ∧ (entriesOf "gcp.vertex.agent.tool_response"
       <$> telemetry.toolCallAttributes telemetry.sampleMarshal searchTool None
             sampleToolEvent)
    = Some [attribute.StringValue "{map}"].
Proof. split; vm_compute; reflexivity. Qed.

(** A response that cannot be marshalled degrades to the sentinel. *)
Example opaque_response_not_serializable :
  telemetry.safeSerialize telemetry.sampleMarshal
    (telemetry.AnyMap (Some {["conn" := GoOpaque 1]}))
  = "<not serializable>".
Proof. vm_compute. reflexivity. Qed.

(** ** The event-graph endpoint *)

Section EventGraphFacts.

Context {SessionID Agent : Type}.
Variable AppName : SessionID → string.
Variable SessionIDFromHTTPParameters : gmap string string → SessionID + string.
Variable sessionService_Get : SessionID → list session.Event.t + string.
Variable LoadAgent : string → Agent + string.
Variable GetAgentGraph : Agent → list (list string) → string + string.

(** When the session, the event and the agent are found, the graph that
    [EventGraph] returns is the one rendered for the highlight pairs of the
    first event with the requested identifier. *)
Lemma EventGraph_renders_highlightedPairs vars sessionID events eventID event agent graph :
  SessionIDFromHTTPParameters vars = inl sessionID →
  sessionService_Get sessionID = inl events →
  vars !! "event_id" = Some eventID →
  eventID ≠ "" →
  List.find (fun it => String.eqb (session.Event.ID it) eventID) events = Some event →
  LoadAgent (AppName sessionID) = inl agent →
  GetAgentGraph agent (handlers.highlightedPairs event) = inl graph →
  handlers.EventGraph AppName SessionIDFromHTTPParameters sessionService_Get
    LoadAgent GetAgentGraph vars
  = handlers.EncodeJSONResponse {["dotSrc" := graph]} 200.
Proof.
  intros Hs Hget Hid Hne Hfind Hload Hgraph.
  unfold handlers.EventGraph.
  rewrite Hs, Hget, Hid. simpl.
  rewrite (proj2 (String.eqb_neq _ _) Hne), Hfind, Hload, Hgraph.
  reflexivity.
Qed.

End EventGraphFacts.

(** * Further properties *)

(** ** The registry under arbitrary call sequences *)

Section RegistryReachable.

Context {SpanProcessor : Type}.
Implicit Types (g : telemetry.globals SpanProcessor)
               (ps : list SpanProcessor)
               (ops : list (telemetry.op SpanProcessor)).

Lemma step_spanProcessors g o :
  telemetry.spanProcessors (telemetry.step g o)
  = telemetry.spanProcessors g ++ registrations [o].
Proof.
  destruct o as [p| | |n]; simpl; rewrite ?app_nil_r; try done;
    unfold telemetry.StartTrace, telemetry.getTracers, telemetry.RegisterTelemetry;
    destruct (telemetry.localTracer g), (telemetry.once g); done.
Qed.

Lemma run_spanProcessors ops g :
  telemetry.spanProcessors (telemetry.run ops g)
  = telemetry.spanProcessors g ++ registrations ops.
Proof.
  revert g. induction ops as [|o ops IH]; intros g.
  - simpl. by rewrite app_nil_r.
  - change (telemetry.run (o :: ops) g) with (telemetry.run ops (telemetry.step g o)).
    rewrite IH, step_spanProcessors.
    change (o :: ops) with ([o] ++ ops).
    unfold registrations. rewrite omap_app. by rewrite app_assoc.
Qed.

Lemma run_unsealed ops ps :
  telemetry.attached (telemetry.run ops (telemetry.mkGlobals false None ps))
  = app ps <$> registeredBeforeInit ops.
Proof.
  revert ps. induction ops as [|o ops IH]; intros ps; first done.
  change (telemetry.run (o :: ops) ?g) with (telemetry.run ops (telemetry.step g o)).
  destruct (initialises o) eqn:Ho.
  - rewrite (step_initialises (telemetry.mkGlobals false None ps) o Ho eq_refl eq_refl).
    simpl. unfold telemetry.attached.
    rewrite (run_sealed ops _ (telemetry.mkProvider ps)) by reflexivity.
    destruct o; first done; simpl; by rewrite app_nil_r.
  - destruct o as [p| | |n]; try done. simpl.
    unfold telemetry.AddSpanProcessor. simpl. rewrite IH.
    destruct (registeredBeforeInit ops) as [qs|]; simpl; last done.
    by rewrite <- app_assoc.
Qed.

Lemma run_attached ops :
  telemetry.attached (telemetry.run ops telemetry.initial) = registeredBeforeInit ops.
Proof.
  unfold telemetry.initial. rewrite run_unsealed.
  by destruct (registeredBeforeInit ops).
Qed.

(** The provider exists exactly when the do-once guard has fired. *)
Lemma run_guard ops :
  telemetry.once (telemetry.run ops telemetry.initial)
  = bool_decide (is_Some (telemetry.localTracer (telemetry.run ops telemetry.initial))).
Proof.
  assert (∀ g, telemetry.once g
               = bool_decide (is_Some (telemetry.localTracer g)) →
               telemetry.once (telemetry.run ops g)
               = bool_decide (is_Some (telemetry.localTracer (telemetry.run ops g))))
    as Hinv; last by apply Hinv.
  induction ops as [|o ops IH]; intros g Hg; first done.
  change (telemetry.run (o :: ops) g) with (telemetry.run ops (telemetry.step g o)).
  apply IH. destruct g as [[] [tp|] l]; try done;
    destruct o as [p| | |n]; done.
Qed.

(** The attached processors of any call sequence: those registered before
    its first initialising call, in registration order, however
    registrations and initialising calls are interleaved afterwards; and the
    configuration list keeps every registration, late ones included. *)
Theorem attached_after_any_calls ops :
  telemetry.attached (telemetry.run ops telemetry.initial) = registeredBeforeInit ops
  ∧ telemetry.spanProcessors (telemetry.run ops telemetry.initial) = registrations ops.
Proof.
  split.
  - apply run_attached.
  - by rewrite run_spanProcessors.
Qed.

(** [StartTrace] never panics in a state the package can reach, and
    returns exactly two spans, both new and named as asked. *)
Theorem StartTrace_two_spans ops traceName :
  (telemetry.StartTrace traceName (telemetry.run ops telemetry.initial)).2
  = Some [trace.Start traceName; trace.Start traceName].
Proof.
  pose proof (run_guard ops) as Hguard.
  unfold telemetry.StartTrace, telemetry.getTracers.
  destruct (telemetry.localTracer (telemetry.run ops telemetry.initial))
    as [tp|] eqn:Ht; simpl.
  - by rewrite Ht.
  - rewrite bool_decide_eq_false_2 in Hguard by (by intros [? ?]).
    by rewrite (RegisterTelemetry_first _ Hguard).
Qed.

Lemma getTracers_sealed g tp :
  telemetry.localTracer g = Some tp →
  telemetry.getTracers g
  = (g, Some [telemetry.LocalTracer tp; telemetry.GlobalTracer]).
Proof. intros Ht. unfold telemetry.getTracers. by rewrite Ht; simpl; rewrite Ht. Qed.

Lemma getTracers_first g :
  telemetry.once g = false → telemetry.localTracer g = None →
  telemetry.getTracers g
  = (telemetry.mkGlobals true
       (Some (telemetry.mkProvider (telemetry.spanProcessors g)))
       (telemetry.spanProcessors g),
     Some [telemetry.LocalTracer (telemetry.mkProvider (telemetry.spanProcessors g));
           telemetry.GlobalTracer]).
Proof.
  intros Hg Ht. unfold telemetry.getTracers. rewrite Ht.
  by rewrite (RegisterTelemetry_first _ Hg).
Qed.

(** The tracers handed out by [getTracers] never change: whatever calls
    follow the first [getTracers], a later [getTracers] returns the local
    tracer of the same provider, with the same processors. *)
Theorem getTracers_stable ops later :
  (telemetry.getTracers
     (telemetry.run later
        (telemetry.getTracers (telemetry.run ops telemetry.initial)).1)).2
  = (telemetry.getTracers (telemetry.run ops telemetry.initial)).2
  ∧ is_Some (telemetry.getTracers (telemetry.run ops telemetry.initial)).2.
Proof.
  pose proof (run_guard ops) as Hguard.
  set (g := telemetry.run ops telemetry.initial) in *.
  destruct (telemetry.localTracer g) as [tp|] eqn:Ht.
  - rewrite bool_decide_eq_true_2 in Hguard by eauto.
    rewrite (getTracers_sealed g tp Ht). cbn [fst snd].
    rewrite (getTracers_sealed _ tp (run_sealed later g tp Hguard Ht)). eauto.
  - rewrite bool_decide_eq_false_2 in Hguard by (by intros [? ?]).
    rewrite (getTracers_first g Hguard Ht). cbn [fst snd].
    erewrite getTracers_sealed; first eauto.
    by apply run_sealed.
Qed.

(** The documented contract of the public [RegisterSpanProcessor]: a
    processor registered while no tracer exists is attached by the next
    [StartTrace], after the earlier registrations; a processor registered
    once the tracer exists is ignored, whatever calls follow. *)
Theorem RegisterSpanProcessor_before_or_ignored ops p traceName later :
  (telemetry.attached (telemetry.run ops telemetry.initial) = None →
   telemetry.attached
     (telemetry.StartTrace traceName
        (adk_telemetry.RegisterSpanProcessor p (telemetry.run ops telemetry.initial))).1
   = Some (registrations ops ++ [p]))
  ∧ (∀ ps,
       telemetry.attached (telemetry.run ops telemetry.initial) = Some ps →
       telemetry.attached
         (telemetry.run later
            (adk_telemetry.RegisterSpanProcessor p (telemetry.run ops telemetry.initial)))
       = Some ps).
Proof.
  split.
  - intros Hnone.
    change (telemetry.StartTrace traceName (adk_telemetry.RegisterSpanProcessor p ?g)).1
      with (telemetry.run [telemetry.OpAddSpanProcessor p; telemetry.OpStartTrace traceName] g).
    rewrite <- run_app.
    rewrite (run_attached
               (ops ++ [telemetry.OpAddSpanProcessor p; telemetry.OpStartTrace traceName])).
    pose proof (run_attached ops) as Hops. rewrite Hnone in Hops.
    clear Hnone. induction ops as [|o ops IH]; first done.
    destruct o as [q| | |n]; try done. simpl in *.
    destruct (registeredBeforeInit ops); first done.
    by rewrite IH.
  - intros ps Hps.
    change (adk_telemetry.RegisterSpanProcessor p ?g)
      with (telemetry.run [telemetry.OpAddSpanProcessor p] g).
    rewrite <- !run_app.
    pose proof (run_attached ops) as Hops. rewrite Hps in Hops.
    rewrite (run_attached (ops ++ [telemetry.OpAddSpanProcessor p] ++ later)).
    clear Hps. revert ps Hops. induction ops as [|o ops IH]; intros ps Hops; first done.
    destruct o as [q| | |n]; try done. simpl in *.
    destruct (registeredBeforeInit ops) as [qs|] eqn:Hqs; last done.
    by rewrite (IH qs eq_refl).
Qed.

End RegistryReachable.

(** ** The request trace *)

Section RequestTraceFacts.

Implicit Types (req : model.LLMRequest.t) (c : genai.Content.t) (part : genai.Part.t).

Lemma filter_inline_elem_of (parts : list genai.Part.t) part :
  part ∈ List.filter
           (fun part => negb (bool_decide (is_Some (genai.Part.InlineData part)))) parts
  ↔ part ∈ parts ∧ genai.Part.InlineData part = None.
Proof.
  rewrite !list_elem_of_In, filter_In, negb_true_iff, bool_decide_eq_false.
  split; intros [Hin Hnone]; (split; first done).
  - destruct (genai.Part.InlineData part); last done. destruct Hnone. eauto.
  - rewrite Hnone. by intros [? ?].
Qed.

Lemma filter_inline_sublist (parts : list genai.Part.t) :
  List.filter
    (fun part => negb (bool_decide (is_Some (genai.Part.InlineData part)))) parts
  `sublist_of` parts.
Proof.
  induction parts as [|part parts IH]; first done. simpl.
  destruct (negb _); by constructor.
Qed.

Lemma filter_inline_exact (parts : list genai.Part.t) :
  List.filter
    (fun part => negb (bool_decide (is_Some (genai.Part.InlineData part)))) parts
  = withoutInlineData parts.
Proof.
  induction parts as [|part parts IH]; first done. simpl.
  destruct (genai.Part.InlineData part) as [blob|]; simpl; by rewrite IH.
Qed.

Lemma filter_inline_id (parts : list genai.Part.t) :
  Forall (fun part => genai.Part.InlineData part = None) parts →
  List.filter
    (fun part => negb (bool_decide (is_Some (genai.Part.InlineData part)))) parts
  = parts.
Proof.
  induction 1 as [|part parts Hpart _ IH]; first done. simpl.
  rewrite Hpart, IH. rewrite bool_decide_eq_false_2; first done. by intros [? ?].
Qed.

(** [llmRequestToTrace] copies the model and the configuration and keeps
    one content per content of the request, with the same role; the parts
    of each are exactly the parts of the original without inline data, in
    their order and each as often as it occurs: no part with inline data
    is left, and no other part is lost. *)
Theorem llmRequestToTrace_strips_inline_data req :
  telemetry.model_ (telemetry.llmRequestToTrace req) = model.LLMRequest.Model req
  ∧ telemetry.config (telemetry.llmRequestToTrace req) = model.LLMRequest.Config req
  ∧ length (telemetry.content (telemetry.llmRequestToTrace req))
    = length (model.LLMRequest.Contents req)
  ∧ ∀ i c,
      model.LLMRequest.Contents req !! i = Some c →
      ∃ c', telemetry.content (telemetry.llmRequestToTrace req) !! i = Some c'
            ∧ genai.Content.Role c' = genai.Content.Role c
            ∧ genai.Content.Parts c'
              = Some (withoutInlineData (elems (genai.Content.Parts c)))
            ∧ elems (genai.Content.Parts c') `sublist_of` elems (genai.Content.Parts c)
            ∧ ∀ part, part ∈ elems (genai.Content.Parts c')
                      ↔ part ∈ elems (genai.Content.Parts c)
                        ∧ genai.Part.InlineData part = None.
Proof.
  unfold telemetry.llmRequestToTrace. simpl.
  split; first done. split; first done. split; first by rewrite length_map.
  intros i c Hc. eexists. rewrite list_lookup_fmap, Hc. simpl.
  split; first done. simpl. split; first done.
  split; first by rewrite filter_inline_exact.
  split; first apply filter_inline_sublist.
  intros part. apply filter_inline_elem_of.
Qed.

(** On a request that holds no inline data the trace keeps every part of
    every content, in order. *)
Theorem llmRequestToTrace_keeps_plain_parts req :
  Forall (fun c => Forall (fun part => genai.Part.InlineData part = None)
                     (elems (genai.Content.Parts c)))
         (model.LLMRequest.Contents req) →
  map (fun c => (genai.Content.Role c, elems (genai.Content.Parts c)))
      (telemetry.content (telemetry.llmRequestToTrace req))
  = map (fun c => (genai.Content.Role c, elems (genai.Content.Parts c)))
        (model.LLMRequest.Contents req).
Proof.
  unfold telemetry.llmRequestToTrace. simpl.
  induction 1 as [|c cs Hc _ IH]; first done.
  simpl. rewrite IH. by rewrite (filter_inline_id _ Hc).
Qed.

End RequestTraceFacts.

Lemma llmRequestToTrace_keeps_plain_parts_witness :
  map (fun c => (genai.Content.Role c, elems (genai.Content.Parts c)))
      (telemetry.content
         (telemetry.llmRequestToTrace
            (model.LLMRequest.mk "gemini-2.0"
               [genai.Content.mk "user" (Some [textPart "hello"; callPart "search"]);
                genai.Content.mk "model" None]
               None)))
  = [("user", [textPart "hello"; callPart "search"]); ("model", [])].
Proof.
  apply (llmRequestToTrace_keeps_plain_parts
           (model.LLMRequest.mk "gemini-2.0"
              [genai.Content.mk "user" (Some [textPart "hello"; callPart "search"]);
               genai.Content.mk "model" None]
              None)).
  repeat constructor.
Defined.

(** ** When the annotators return, and what they leave behind *)

Section AnnotatorOutcomes.

Variable json_Marshal : telemetry.any → telemetry.MarshalResult.

Lemma rangeSpans_constant (attributes : option (list attribute.KeyValue)) spans :
  telemetry.rangeSpans
    (fun span => a ← attributes; Some (trace.Span_End (trace.Span_SetAttributes a span)))
    spans
  = match attributes, spans with
    | Some a, _ => telemetry.Returned (map (annotated a) spans)
    | None, [] => telemetry.Returned []
    | None, _ :: _ => telemetry.Panicked spans
    end.
Proof.
  destruct attributes as [a|]; last by destruct spans.
  induction spans as [|span spans IH]; first done.
  simpl in *. by rewrite IH.
Qed.

Lemma rangeSpans_allOrNothing (attributes : option (list attribute.KeyValue)) spans :
  allOrNothing spans
    (telemetry.rangeSpans
       (fun span => a ← attributes; Some (trace.Span_End (trace.Span_SetAttributes a span)))
       spans).
Proof.
  rewrite rangeSpans_constant. unfold allOrNothing.
  destruct attributes as [a|]; first by (right; right; exists a).
  destruct spans; [by right; left | by left].
Qed.

Lemma allOrNothing_returnsAnnotated spans o :
  allOrNothing spans o → returnsAnnotated spans o.
Proof.
  intros [->|[->|[a ->]]] spans' Hret; try done.
  - injection Hret as <-. by left.
  - injection Hret as <-. right. by exists a.
Qed.

(** Whenever an annotator returns, it has either touched no span or given
    every span of the list one and the same attribute list followed by
    [End], with the name and the earlier calls of the span kept. *)
Theorem annotators_same_attributes spans t fnArgs agentCtx llmRequest event :
  returnsAnnotated spans (telemetry.TraceMergedToolCalls json_Marshal spans event)
  ∧ returnsAnnotated spans (telemetry.TraceToolCall json_Marshal spans t fnArgs event)
  ∧ returnsAnnotated spans
      (telemetry.TraceLLMCall json_Marshal spans agentCtx llmRequest event).
Proof.
  split; [|split]; apply allOrNothing_returnsAnnotated.
  - destruct event as [e|]; last by (right; left).
    exact (rangeSpans_allOrNothing
             (Some (telemetry.mergedToolCallAttributes json_Marshal e)) spans).
  - destruct event as [e|]; last by (right; left).
    apply rangeSpans_allOrNothing.
  - apply rangeSpans_allOrNothing.
Qed.

(** [TraceLLMCall] does nothing on an empty span list; on a list that is
    not empty it panics, before any span is touched, whenever the request,
    the configuration of the request or the event is nil. *)
Theorem TraceLLMCall_panics_on_nil agentCtx llmRequest event :
  telemetry.TraceLLMCall json_Marshal [] agentCtx llmRequest event
  = telemetry.Returned []
  ∧ ∀ span spans,
      llmRequest = None ∨ event = None
      ∨ (∃ req, llmRequest = Some req ∧ model.LLMRequest.Config req = None) →
      telemetry.TraceLLMCall json_Marshal (span :: spans) agentCtx llmRequest event
      = telemetry.Panicked (span :: spans).
Proof.
  split; first done. intros span spans Hnil.
  unfold telemetry.TraceLLMCall. rewrite rangeSpans_constant.
  replace (telemetry.llmCallAttributes json_Marshal agentCtx llmRequest event)
    with (@None (list attribute.KeyValue)); first done.
  unfold telemetry.llmCallAttributes.
  destruct Hnil as [->|[->|(req & -> & Hcfg)]]; first done.
  - by destruct llmRequest.
  - destruct event as [e|]; last done. simpl. by rewrite Hcfg.
Qed.

(** [TraceToolCall] does nothing on an empty span list or a nil event; on
    a list that is not empty it panics, before any span is touched,
    whenever the event is not nil and its LLM response, or the content of
    that response, is nil. *)
Theorem TraceToolCall_panics_on_nil t fnArgs :
  (∀ event, telemetry.TraceToolCall json_Marshal [] t fnArgs event
            = telemetry.Returned [])
  ∧ (∀ spans, telemetry.TraceToolCall json_Marshal spans t fnArgs None
              = telemetry.Returned spans)
  ∧ ∀ span spans e,
      session.Event.LLMResponse e = None
      ∨ (∃ llmResponse, session.Event.LLMResponse e = Some llmResponse
                        ∧ model.LLMResponse.Content llmResponse = None) →
      telemetry.TraceToolCall json_Marshal (span :: spans) t fnArgs (Some e)
      = telemetry.Panicked (span :: spans).
Proof.
  split; [|split].
  - by intros [e|].
  - done.
  - intros span spans e Hnil.
    unfold telemetry.TraceToolCall. rewrite rangeSpans_constant.
    replace (telemetry.toolCallAttributes json_Marshal t fnArgs e)
      with (@None (list attribute.KeyValue)); first done.
    unfold telemetry.toolCallAttributes.
    destruct Hnil as [->|(r & -> & Hc)]; first done.
    simpl. by rewrite Hc.
Qed.

(** The attributes of an LLM call whose request, configuration and event
    are present: every span receives them and is ended; the model, the
    identifiers of invocation, session and event and the two serialised
    payloads are each set once; [gen_ai.request.top_p] is set exactly when
    [TopP] is, and [gen_ai.request.max_tokens] exactly when
    [MaxOutputTokens] is not zero. *)
Theorem TraceLLMCall_attributes spans agentCtx req cfg e :
  model.LLMRequest.Config req = Some cfg →
  ∃ attributes,
    telemetry.TraceLLMCall json_Marshal spans agentCtx (Some req) (Some e)
    = telemetry.Returned (map (annotated attributes) spans)
    ∧ entriesOf "gen_ai.system" attributes = [attribute.StringValue "gcp.vertex.agent"]
    ∧ entriesOf "gen_ai.request.model" attributes
      = [attribute.StringValue (model.LLMRequest.Model req)]
    ∧ entriesOf "gcp.vertex.agent.invocation_id" attributes
      = [attribute.StringValue (session.Event.InvocationID e)]
    ∧ entriesOf "gcp.vertex.agent.session_id" attributes
      = [attribute.StringValue (agent.SessionID agentCtx)]
    ∧ entriesOf "gcp.vertex.agent.event_id" attributes
      = [attribute.StringValue (session.Event.ID e)]
    ∧ entriesOf "gcp.vertex.agent.llm_request" attributes
      = [attribute.StringValue
           (telemetry.safeSerialize json_Marshal
              (telemetry.AnyRequestTrace (telemetry.llmRequestToTrace req)))]
    ∧ entriesOf "gcp.vertex.agent.llm_response" attributes
      = [attribute.StringValue
           (telemetry.safeSerialize json_Marshal
              (telemetry.AnyLLMResponse (session.Event.LLMResponse e)))]
    ∧ entriesOf "gen_ai.request.top_p" attributes
      = match genai.GenerateContentConfig.TopP cfg with
        | Some topP => [attribute.Float64Value (attribute.Float64OfFloat32 topP)]
        | None => []
        end
    ∧ entriesOf "gen_ai.request.max_tokens" attributes
      = if decide (genai.GenerateContentConfig.MaxOutputTokens cfg = 0%Z) then []
        else [attribute.Int64Value (genai.GenerateContentConfig.MaxOutputTokens cfg)].
Proof.
  intros Hcfg. unfold telemetry.TraceLLMCall. rewrite rangeSpans_constant.
  unfold telemetry.llmCallAttributes. simpl. rewrite Hcfg. simpl.
  eexists. split; first done.
  destruct (genai.GenerateContentConfig.TopP cfg) as [topP|];
    (destruct (decide (genai.GenerateContentConfig.MaxOutputTokens cfg = 0%Z))
       as [Hz|Hz];
     [ rewrite (proj2 (Z.eqb_eq _ _) Hz) | rewrite (proj2 (Z.eqb_neq _ _) Hz) ]);
    repeat split.
Qed.

End AnnotatorOutcomes.

Lemma TraceLLMCall_attributes_witness :
  ∃ attributes,
    telemetry.TraceLLMCall telemetry.sampleMarshal
      [trace.Start "call_llm"; trace.Start "call_llm"]
      (agent.mkContext "session-1") (Some sampleRequest) (Some sampleToolEvent)
    = telemetry.Returned
        (map (annotated attributes) [trace.Start "call_llm"; trace.Start "call_llm"])
    ∧ entriesOf "gcp.vertex.agent.llm_request" attributes
      = [attribute.StringValue "{request gemini-2.0}"]
    ∧ entriesOf "gen_ai.request.top_p" attributes
      = [attribute.Float64Value (attribute.Float64OfFloat32 1064514355%Z)]
    ∧ entriesOf "gen_ai.request.max_tokens" attributes = [].
Proof.
  destruct (TraceLLMCall_attributes telemetry.sampleMarshal
              [trace.Start "call_llm"; trace.Start "call_llm"]
              (agent.mkContext "session-1") sampleRequest
              (genai.GenerateContentConfig.mk (Some 1064514355%Z) 0%Z)
              sampleToolEvent eq_refl)
    as (attributes & Hret & _ & _ & _ & _ & _ & Hreq & _ & Htop & Hmax).
  exists attributes. repeat split; assumption.
Defined.

(** ** The trace store: lookups, growth and batching *)

Section StoreLookups.

Implicit Types (traceDict : gmap string (gmap string string))
               (span : services.ReadOnlySpan)
               (spans : list services.ReadOnlySpan)
               (batches : list (list services.ReadOnlySpan)).

Lemma lastValue_cons key a attributes :
  lastValue key (a :: attributes)
  = match lastValue key attributes with
    | Some v => Some v
    | None => if decide (attribute.Key a = key) then Some (attribute.Val a) else None
    end.
Proof.
  unfold lastValue, entriesOf. simpl.
  destruct (decide (attribute.Key a = key)) as [Hk|Hk].
  - rewrite (proj2 (String.eqb_eq _ _) Hk). simpl. apply last_cons.
  - rewrite (proj2 (String.eqb_neq _ _) Hk).
    by destruct (last _).
Qed.

Lemma fold_attributes_last (l : list attribute.KeyValue) (m : gmap string string) key :
  fold_left
    (fun (m : gmap string string) a =>
       <[attribute.Key a := attribute.AsString (attribute.Val a)]> m) l m
    !! key
  = match lastValue key l with
    | Some v => Some (attribute.AsString v)
    | None => m !! key
    end.
Proof.
  revert m. induction l as [|a l IH]; intros m; first done.
  simpl. rewrite IH, lastValue_cons.
  destruct (lastValue key l) as [v|]; first done.
  destruct (decide (attribute.Key a = key)) as [<-|Hk].
  - apply lookup_insert_eq.
  - by rewrite lookup_insert_ne.
Qed.

Lemma spanAttributes_other_key span key :
  key ≠ "span_id" → key ≠ "trace_id" →
  services.spanAttributes span !! key
  = attribute.AsString <$> lastValue key (services.Attributes span).
Proof.
  intros Hs Ht. unfold services.spanAttributes.
  rewrite !lookup_insert_ne by done.
  rewrite fold_attributes_last, lookup_empty.
  by destruct (lastValue key (services.Attributes span)).
Qed.

(** What the attribute map of a span holds under a key: the identifiers of
    the span under ["span_id"] and ["trace_id"], whatever attributes of
    those names the span has; under any other key, the string of the last
    attribute with that key. *)
Theorem spanAttributes_lookup span key :
  services.spanAttributes span !! key
  = if decide (key = "span_id") then Some (services.SpanID span)
    else if decide (key = "trace_id") then Some (services.TraceID span)
    else attribute.AsString <$> lastValue key (services.Attributes span).
Proof.
  destruct (decide (key = "span_id")) as [->|Hs];
    first apply spanAttributes_ids.
  destruct (decide (key = "trace_id")) as [->|Ht];
    first apply spanAttributes_ids.
  by apply spanAttributes_other_key.
Qed.

Lemma exportSpan_lookup_writes traceDict span eventID :
  services.exportSpan traceDict span !! eventID
  = if writesTo eventID span then Some (services.spanAttributes span)
    else traceDict !! eventID.
Proof.
  unfold services.exportSpan, writesTo.
  destruct (services.nameKept (services.Name span)); last done. simpl.
  destruct (services.spanAttributes span !! "gcp.vertex.agent.event_id")
    as [e|] eqn:He.
  - destruct (decide (e = eventID)) as [->|Hne].
    + rewrite bool_decide_eq_true_2 by done. apply lookup_insert_eq.
    + rewrite bool_decide_eq_false_2 by congruence. by rewrite lookup_insert_ne.
  - by rewrite bool_decide_eq_false_2.
Qed.

Lemma ExportSpans_snoc_lookup traceDict spans span eventID :
  writesTo eventID span = true →
  services.ExportSpans traceDict (spans ++ [span]) !! eventID
  = Some (services.spanAttributes span).
Proof.
  intros Hw. rewrite ExportSpans_snoc, exportSpan_lookup_writes. by rewrite Hw.
Qed.

Lemma ExportSpans_unwritten traceDict spans eventID :
  Forall (fun span => writesTo eventID span = false) spans →
  services.ExportSpans traceDict spans !! eventID = traceDict !! eventID.
Proof.
  unfold services.ExportSpans. intros Hnone. revert traceDict.
  induction Hnone as [|span spans Hspan _ IH]; intros traceDict; first done.
  simpl. rewrite IH, exportSpan_lookup_writes. by rewrite Hspan.
Qed.

Lemma ExportSpans_keeps_keys traceDict spans eventID :
  is_Some (traceDict !! eventID) →
  is_Some (services.ExportSpans traceDict spans !! eventID).
Proof.
  unfold services.ExportSpans. revert traceDict.
  induction spans as [|span spans IH]; intros traceDict Hin; first done.
  simpl. apply IH. rewrite exportSpan_lookup_writes.
  destruct (writesTo eventID span); eauto.
Qed.

(** Last write wins within and across batches: the entry under an event id
    after an export is the attribute map of the last span of the batch
    that the exporter stores under that id, and the entry from before when
    the batch has no such span. *)
Theorem ExportSpans_lookup_last traceDict spans eventID :
  services.ExportSpans traceDict spans !! eventID
  = match last (List.filter (writesTo eventID) spans) with
    | Some span => Some (services.spanAttributes span)
    | None => traceDict !! eventID
    end.
Proof.
  unfold services.ExportSpans.
  revert traceDict. induction spans as [|span spans IH]; intros traceDict; first done.
  simpl. rewrite IH, exportSpan_lookup_writes.
  destruct (writesTo eventID span); last done.
  rewrite last_cons. by destruct (last _).
Qed.

(** The store never evicts: every key present before an export is present
    after it, and a key that no span of the batch writes keeps its map. *)
Theorem ExportSpans_never_evicts traceDict spans :
  dom traceDict ⊆ dom (services.ExportSpans traceDict spans)
  ∧ ∀ eventID,
      Forall (fun span => writesTo eventID span = false) spans →
      services.ExportSpans traceDict spans !! eventID = traceDict !! eventID.
Proof.
  split.
  - intros eventID. rewrite !elem_of_dom. apply ExportSpans_keeps_keys.
  - intros eventID. apply ExportSpans_unwritten.
Qed.

(** A batch whose spans all have another name, or carry no event id,
    leaves the store as it was. *)
Theorem ExportSpans_ignores_other_spans traceDict spans :
  Forall (fun span =>
            services.nameKept (services.Name span) = false
            ∨ lastValue "gcp.vertex.agent.event_id" (services.Attributes span) = None)
         spans →
  services.ExportSpans traceDict spans = traceDict.
Proof.
  intros Hspans. apply map_eq. intros eventID.
  apply ExportSpans_unwritten.
  eapply Forall_impl; first exact Hspans.
  intros span [Hname|Hid]; unfold writesTo.
  - by rewrite Hname.
  - rewrite spanAttributes_other_key, Hid by done. simpl.
    rewrite ?bool_decide_eq_false_2 by done. apply andb_false_r.
Qed.

(** How spans are cut into batches does not matter: exporting two batches
    in turn is exporting their concatenation, and the store after any
    sequence of batches is the store after one export of all their
    spans. *)
Theorem ExportSpans_batching traceDict spans1 spans2 batches :
  services.ExportSpans (services.ExportSpans traceDict spans1) spans2
  = services.ExportSpans traceDict (spans1 ++ spans2)
  ∧ services.afterBatches batches
    = services.ExportSpans services.NewAPIServerSpanExporter (concat batches).
Proof.
  split.
  - unfold services.ExportSpans. by rewrite fold_left_app.
  - unfold services.afterBatches.
    generalize services.NewAPIServerSpanExporter.
    induction batches as [|spans batches IH]; intros d; first done.
    simpl. rewrite IH. unfold services.ExportSpans. by rewrite fold_left_app.
Qed.

End StoreLookups.

Lemma ExportSpans_ignores_other_spans_witness :
  services.ExportSpans (services.afterBatches [[toolSpan]])
    [agentSpan; services.mkSpan "call_llm" [attribute.String "foo" "bar"] "t1" "s1"]
  = services.afterBatches [[toolSpan]].
Proof.
  apply (ExportSpans_ignores_other_spans (services.afterBatches [[toolSpan]])
           [agentSpan;
            services.mkSpan "call_llm" [attribute.String "foo" "bar"] "t1" "s1"]).
  constructor; first by left.
  constructor; first by right.
  constructor.
Defined.

(** ** From the annotators to the trace endpoint *)

Section Pipeline.

Variable json_Marshal : telemetry.any → telemetry.MarshalResult.

Implicit Types (traceDict : gmap string (gmap string string))
               (span : services.ReadOnlySpan)
               (params : gmap string string).

(** Every annotator sets the event id last under its key as the
    identifier of the event. *)
Lemma annotatorAttributes_event_id e attributes :
  annotatorAttributes json_Marshal e attributes →
  lastValue "gcp.vertex.agent.event_id" attributes
  = Some (attribute.StringValue (session.Event.ID e)).
Proof.
  intros [->|[(t & fnArgs & Ha)|(agentCtx & llmRequest & Ha)]]; first done.
  - unfold telemetry.toolCallAttributes in Ha.
    destruct (session.Event.LLMResponse e) as [r|]; last done. simpl in Ha.
    destruct (model.LLMResponse.Content r) as [c|]; last done. simpl in Ha.
    destruct (elems (genai.Content.Parts c)) as [|part0 rest];
      [|destruct (genai.Part.FunctionResponse part0) as [fr|]];
      by injection Ha as <-.
  - unfold telemetry.llmCallAttributes in Ha.
    destruct llmRequest as [req|]; last done. simpl in Ha.
    destruct (model.LLMRequest.Config req) as [cfg|]; last done. simpl in Ha.
    destruct (genai.GenerateContentConfig.TopP cfg),
      (Z.eqb (genai.GenerateContentConfig.MaxOutputTokens cfg) 0);
      by injection Ha as <-.
Qed.

Lemma TraceDict_found traceDict params eventID eventDict :
  params !! "event_id" = Some eventID → eventID ≠ "" →
  traceDict !! eventID = Some eventDict →
  handlers.TraceDict traceDict params = handlers.EncodeJSONResponse eventDict 200.
Proof.
  intros Hp Hne Hd. unfold handlers.TraceDict, services.GetTraceDict.
  rewrite Hp. simpl. by rewrite (proj2 (String.eqb_neq _ _) Hne), Hd.
Qed.

(** Export, then query: once a span that the exporter stores under a
    non-empty event id has been exported last in a batch, the trace
    endpoint asked for that id answers 200 with the attribute map of that
    span, whatever the store held before. *)
Theorem export_then_TraceDict traceDict spans span params eventID :
  writesTo eventID span = true →
  eventID ≠ "" →
  params !! "event_id" = Some eventID →
  handlers.TraceDict (services.ExportSpans traceDict (spans ++ [span])) params
  = handlers.EncodeJSONResponse (services.spanAttributes span) 200.
Proof.
  intros Hw Hne Hp.
  apply (TraceDict_found _ params eventID); try done.
  by apply ExportSpans_snoc_lookup.
Qed.

(** The join on the event id: a span with a kept name that carries the
    attribute list an annotator built for an event is stored under the
    identifier of that event, and the trace endpoint then serves it under
    that identifier, provided the identifier is not empty. *)
Theorem annotated_span_is_served e attributes span traceDict params :
  annotatorAttributes json_Marshal e attributes →
  services.nameKept (services.Name span) = true →
  services.Attributes span = attributes →
  session.Event.ID e ≠ "" →
  params !! "event_id" = Some (session.Event.ID e) →
  services.ExportSpans traceDict [span] !! session.Event.ID e
  = Some (services.spanAttributes span)
  ∧ handlers.TraceDict (services.ExportSpans traceDict [span]) params
    = handlers.EncodeJSONResponse (services.spanAttributes span) 200.
Proof.
  intros Ha Hname Hattr Hne Hp.
  assert (writesTo (session.Event.ID e) span = true) as Hw.
  { unfold writesTo. rewrite Hname, spanAttributes_other_key by done. simpl.
    rewrite Hattr, (annotatorAttributes_event_id e attributes Ha). simpl.
    by apply bool_decide_eq_true_2. }
  pose proof (ExportSpans_snoc_lookup traceDict [] span _ Hw) as Hstored.
  split; first exact Hstored.
  exact (TraceDict_found _ params _ _ Hp Hne Hstored).
Qed.

(** The numeric attributes of an LLM call reach the trace store as empty
    strings: the exporter reads every value with [AsString], which is empty
    for a value that is not a string. *)
Theorem llm_call_numbers_stored_empty agentCtx req cfg e attributes span :
  model.LLMRequest.Config req = Some cfg →
  telemetry.llmCallAttributes json_Marshal agentCtx (Some req) (Some e)
  = Some attributes →
  services.Attributes span = attributes →
  (is_Some (genai.GenerateContentConfig.TopP cfg) →
   services.spanAttributes span !! "gen_ai.request.top_p" = Some "")
  ∧ (genai.GenerateContentConfig.MaxOutputTokens cfg ≠ 0%Z →
     services.spanAttributes span !! "gen_ai.request.max_tokens" = Some "")
  ∧ services.spanAttributes span !! "gen_ai.request.model"
    = Some (model.LLMRequest.Model req).
Proof.
  intros Hcfg Ha Hattr. rewrite !spanAttributes_other_key, Hattr by done.
  unfold telemetry.llmCallAttributes in Ha. simpl in Ha. rewrite Hcfg in Ha.
  simpl in Ha.
  destruct (genai.GenerateContentConfig.TopP cfg) as [topP|];
    (destruct (Z.eqb_spec (genai.GenerateContentConfig.MaxOutputTokens cfg) 0)
       as [Hz|Hz]);
    injection Ha as <-; repeat split; try done;
    by intros [? ?].
Qed.

End Pipeline.

Lemma export_then_TraceDict_witness :
  handlers.TraceDict
    (services.ExportSpans services.NewAPIServerSpanExporter ([agentSpan] ++ [toolSpan]))
    {["event_id" := "e1"]}
  = handlers.EncodeJSONResponse (services.spanAttributes toolSpan) 200.
Proof.
  apply (export_then_TraceDict services.NewAPIServerSpanExporter [agentSpan] toolSpan
           {["event_id" := "e1"]} "e1").
  - vm_compute. reflexivity.
  - discriminate.
  - reflexivity.
Defined.

Lemma annotated_span_is_served_witness :
  services.ExportSpans (services.afterBatches [[toolSpan]]) [llmSpan] !! "e1"
  = Some (services.spanAttributes llmSpan)
  ∧ handlers.TraceDict (services.ExportSpans (services.afterBatches [[toolSpan]]) [llmSpan])
      {["event_id" := "e1"]}
    = handlers.EncodeJSONResponse (services.spanAttributes llmSpan) 200.
Proof.
  apply (annotated_span_is_served telemetry.sampleMarshal sampleToolEvent
           (services.Attributes llmSpan) llmSpan (services.afterBatches [[toolSpan]])
           {["event_id" := "e1"]}).
  - right. right. exists (agent.mkContext "session-1"), (Some sampleRequest).
    reflexivity.
  - reflexivity.
  - reflexivity.
  - discriminate.
  - reflexivity.
Defined.

Lemma llm_call_numbers_stored_empty_witness :
  services.spanAttributes llmSpan !! "gen_ai.request.top_p" = Some ""
  ∧ services.spanAttributes llmSpan !! "gen_ai.request.model" = Some "gemini-2.0".
Proof.
  destruct (llm_call_numbers_stored_empty telemetry.sampleMarshal
              (agent.mkContext "session-1") sampleRequest
              (genai.GenerateContentConfig.mk (Some 1064514355%Z) 0%Z)
              sampleToolEvent (services.Attributes llmSpan) llmSpan
              eq_refl eq_refl eq_refl) as (Htop & _ & Hmodel).
  split; [apply Htop; simpl; eauto | exact Hmodel].
Defined.

(** ** The trace endpoint, read backwards *)

(** [TraceDict] answers in one of three ways only, and each answer tells
    what the request and the store were: 400 with the fixed message for an
    empty or missing [event_id]; 404 with a message that names the
    identifier when the store has no entry under it; 200 with a map only
    when that map is stored under the identifier, which is not empty, so
    that an entry stored under the empty identifier is never served. *)
Lemma TraceDict_cases (traceDict : gmap string (gmap string string))
    (params : gmap string string) :
  (default "" (params !! "event_id") = ""
   ∧ handlers.TraceDict traceDict params
     = handlers.Error "event_id parameter is required" 400)
  ∨ (∃ eventID, params !! "event_id" = Some eventID ∧ eventID ≠ ""
                ∧ traceDict !! eventID = None
                ∧ handlers.TraceDict traceDict params
                  = handlers.Error ("event not found: " +:+ eventID) 404)
  ∨ (∃ eventID eventDict,
       params !! "event_id" = Some eventID ∧ eventID ≠ ""
       ∧ traceDict !! eventID = Some eventDict
       ∧ handlers.TraceDict traceDict params
         = handlers.EncodeJSONResponse eventDict 200).
Proof.
  unfold handlers.TraceDict, services.GetTraceDict.
  destruct (params !! "event_id") as [eventID|] eqn:Hp; simpl; last by left.
  destruct (String.eqb_spec eventID "") as [->|Hne]; first by left.
  right. destruct (traceDict !! eventID) as [eventDict|] eqn:Hd.
  - right. by exists eventID, eventDict.
  - left. by exists eventID.
Qed.

(** A span whose event id reads as the empty string, because the attribute
    is empty or is not a string, is stored under the empty key, where the
    trace endpoint cannot reach it: after such an export, whatever the
    endpoint serves was in the store before, under a key that is not
    empty. *)
Theorem empty_event_id_never_served (traceDict : gmap string (gmap string string))
    (span : services.ReadOnlySpan) :
  writesTo "" span = true →
  services.ExportSpans traceDict [span] !! "" = Some (services.spanAttributes span)
  ∧ ∀ params body code,
      handlers.TraceDict (services.ExportSpans traceDict [span]) params
      = handlers.EncodeJSONResponse body code →
      ∃ eventID, eventID ≠ "" ∧ params !! "event_id" = Some eventID
                 ∧ traceDict !! eventID = Some body.
Proof.
  intros Hw. split; first exact (ExportSpans_snoc_lookup traceDict [] span "" Hw).
  intros params body code Hserved.
  destruct (TraceDict_cases (services.ExportSpans traceDict [span]) params)
    as [[_ H]|[(e & _ & _ & _ & H)|(e & m & Hp & Hne & Hd & H)]];
    rewrite H in Hserved; try done.
  injection Hserved as <- <-. exists e. split; first done. split; first done.
  rewrite <- Hd. symmetry. apply ExportSpans_unwritten.
  constructor; last constructor.
  unfold writesTo in *. apply andb_true_iff in Hw as [_ Hid%bool_decide_eq_true].
  rewrite Hid. rewrite bool_decide_eq_false_2 by congruence. apply andb_false_r.
Qed.

(** ** The highlight pairs *)

Section HighlightFacts.

Implicit Types (event : session.Event.t).

Lemma elem_of_appendNamed pair names author :
  pair ∈ handlers.appendNamed [] names author
  ↔ ∃ n, n ∈ names ∧ n ≠ "" ∧ pair = [n; author].
Proof.
  rewrite appendNamed_spec. simpl. rewrite list_elem_of_fmap.
  split.
  - intros (n & -> & Hn). apply list_elem_of_filter in Hn as [Hne Hn]. eauto.
  - intros (n & Hn & Hne & ->). exists n. split; first done.
    by apply list_elem_of_filter.
Qed.

Lemma elem_of_callsIn parts f :
  f ∈ callsIn parts ↔ ∃ part, part ∈ parts ∧ genai.Part.FunctionCall part = Some f.
Proof. rewrite <- callsIn_omap. apply list_elem_of_omap. Qed.

Lemma elem_of_responsesIn parts f :
  f ∈ responsesIn parts
  ↔ ∃ part, part ∈ parts ∧ genai.Part.FunctionResponse part = Some f.
Proof. rewrite <- responsesIn_omap. apply list_elem_of_omap. Qed.

Lemma callsIn_nil parts :
  callsIn parts = [] ↔ ∀ part, part ∈ parts → genai.Part.FunctionCall part = None.
Proof.
  split.
  - intros Hnil part Hpart.
    destruct (genai.Part.FunctionCall part) as [f|] eqn:Hf; last done.
    assert (f ∈ callsIn parts) as Hin by (apply elem_of_callsIn; eauto).
    rewrite Hnil in Hin. by apply elem_of_nil in Hin.
  - intros Hnone. destruct (callsIn parts) as [|f fs] eqn:Hcalls; first done.
    assert (f ∈ callsIn parts) as Hin by (rewrite Hcalls; left).
    apply elem_of_callsIn in Hin as (part & Hpart & Hf).
    rewrite (Hnone part Hpart) in Hf. done.
Qed.

Lemma responsesIn_nil parts :
  responsesIn parts = []
  ↔ ∀ part, part ∈ parts → genai.Part.FunctionResponse part = None.
Proof.
  split.
  - intros Hnil part Hpart.
    destruct (genai.Part.FunctionResponse part) as [f|] eqn:Hf; last done.
    assert (f ∈ responsesIn parts) as Hin by (apply elem_of_responsesIn; eauto).
    rewrite Hnil in Hin. by apply elem_of_nil in Hin.
  - intros Hnone. destruct (responsesIn parts) as [|f fs] eqn:Hresp; first done.
    assert (f ∈ responsesIn parts) as Hin by (rewrite Hresp; left).
    apply elem_of_responsesIn in Hin as (part & Hpart & Hf).
    rewrite (Hnone part Hpart) in Hf. done.
Qed.

(** Every highlight pair has two components and ends in the author of the
    event; its first component is the name, not empty, of a function call
    held by a part of the event, or of a function response held by a part
    when no part holds a function call, or the author when no part holds
    either. *)
Theorem highlightedPairs_shape event pair :
  pair ∈ handlers.highlightedPairs event →
  ∃ x, pair = [x; session.Event.Author event]
       ∧ ((x ≠ ""
           ∧ ∃ part f, part ∈ partsOf event
                       ∧ genai.Part.FunctionCall part = Some f
                       ∧ genai.FunctionCall.Name f = x)
          ∨ (x ≠ ""
             ∧ (∀ part, part ∈ partsOf event → genai.Part.FunctionCall part = None)
             ∧ ∃ part f, part ∈ partsOf event
                         ∧ genai.Part.FunctionResponse part = Some f
                         ∧ genai.FunctionResponse.Name f = x)
          ∨ (x = session.Event.Author event
             ∧ ∀ part, part ∈ partsOf event →
                       genai.Part.FunctionCall part = None
                       ∧ genai.Part.FunctionResponse part = None)).
Proof.
  destruct (decide (callsOf event = [])) as [Hfc|Hfc];
    [destruct (decide (responsesOf event = [])) as [Hfr|Hfr]|].
  - rewrite (highlightedPairs_neither event Hfc Hfr).
    intros ->%list_elem_of_singleton.
    eexists. split; first done. right. right. split; first done.
    intros part Hpart. split.
    + by apply (proj1 (callsIn_nil _) Hfc).
    + by apply (proj1 (responsesIn_nil _) Hfr).
  - rewrite (highlightedPairs_responses event Hfc Hfr).
    intros (f & -> & Hf)%list_elem_of_fmap.
    apply list_elem_of_filter in Hf as [Hne Hf].
    apply elem_of_responsesIn in Hf as (part & Hpart & Hf).
    eexists. split; first done. right. left.
    split; first done. split; first by apply callsIn_nil.
    by exists part, f.
  - rewrite (highlightedPairs_calls event Hfc).
    intros (f & -> & Hf)%list_elem_of_fmap.
    apply list_elem_of_filter in Hf as [Hne Hf].
    apply elem_of_callsIn in Hf as (part & Hpart & Hf).
    eexists. split; first done. left. split; first done.
    by exists part, f.
Qed.

(** No node is highlighted exactly when the parts of the event hold
    function calls that are all unnamed, whatever responses they hold
    besides, or hold no call and function responses that are all
    unnamed. *)
Theorem highlightedPairs_empty_iff event :
  handlers.highlightedPairs event = []
  ↔ (callsOf event ≠ [] ∧ namedCalls event = [])
    ∨ (callsOf event = [] ∧ responsesOf event ≠ [] ∧ namedResponses event = []).
Proof.
  destruct (decide (callsOf event = [])) as [Hfc|Hfc];
    [destruct (decide (responsesOf event = [])) as [Hfr|Hfr]|].
  - rewrite (highlightedPairs_neither event Hfc Hfr). split; first done.
    intros [[? _]|(_ & ? & _)]; done.
  - rewrite (highlightedPairs_responses event Hfc Hfr). split.
    + intros H%fmap_nil_inv. by right.
    + intros [[? _]|(_ & _ & ->)]; done.
  - rewrite (highlightedPairs_calls event Hfc). split.
    + intros H%fmap_nil_inv. by left.
    + intros [[_ ->]|[? _]]; done.
Qed.

End HighlightFacts.

Lemma empty_event_id_never_served_witness :
  services.ExportSpans (services.afterBatches [[toolSpan]]) [numberedSpan] !! ""
  = Some (services.spanAttributes numberedSpan)
  ∧ ∀ params body code,
      handlers.TraceDict
        (services.ExportSpans (services.afterBatches [[toolSpan]]) [numberedSpan]) params
      = handlers.EncodeJSONResponse body code →
      ∃ eventID, eventID ≠ "" ∧ params !! "event_id" = Some eventID
                 ∧ services.afterBatches [[toolSpan]] !! eventID = Some body.
Proof.
  apply (empty_event_id_never_served (services.afterBatches [[toolSpan]]) numberedSpan).
  vm_compute. reflexivity.
Defined.

Lemma highlightedPairs_shape_witness :
  ∃ x, ["fetch"; "agent_a"] = [x; "agent_a"]
       ∧ ((x ≠ ""
           ∧ ∃ part f, part ∈ [callPart "search"; responsePart "lookup"; callPart "fetch"]
                       ∧ genai.Part.FunctionCall part = Some f
                       ∧ genai.FunctionCall.Name f = x)
          ∨ (x ≠ ""
             ∧ (∀ part, part ∈ [callPart "search"; responsePart "lookup"; callPart "fetch"] →
                        genai.Part.FunctionCall part = None)
             ∧ ∃ part f, part ∈ [callPart "search"; responsePart "lookup"; callPart "fetch"]
                         ∧ genai.Part.FunctionResponse part = Some f
                         ∧ genai.FunctionResponse.Name f = x)
          ∨ (x = "agent_a"
             ∧ ∀ part, part ∈ [callPart "search"; responsePart "lookup"; callPart "fetch"] →
                       genai.Part.FunctionCall part = None
                       ∧ genai.Part.FunctionResponse part = None)).
Proof.
  apply (highlightedPairs_shape
           (eventOf "agent_a"
              (Some [callPart "search"; responsePart "lookup"; callPart "fetch"]))
           ["fetch"; "agent_a"]).
  apply list_elem_of_In. right. left. reflexivity.
Defined.

(** ** The static agent loader *)

Section AgentLoaderFacts.

Context {Agent : Type}.
Implicit Types (agents : gmap string Agent) (name : string).

Lemma ListAgents_keys agents :
  agentloader.ListAgents agents = (map_to_list agents).*1.
Proof.
  unfold agentloader.ListAgents.
  assert (∀ (l : list (string * Agent)) acc,
            fold_left (fun names entry => names ++ [entry.1]) l acc = acc ++ l.*1)
    as Hfold; last by rewrite Hfold.
  induction l as [|entry l IH]; intros acc; simpl.
  - by rewrite app_nil_r.
  - rewrite IH. by rewrite <- app_assoc.
Qed.

Lemma ListAgents_elem_of agents name :
  name ∈ agentloader.ListAgents agents ↔ is_Some (agents !! name).
Proof.
  rewrite ListAgents_keys, list_elem_of_fmap. split.
  - intros ([n a] & -> & Ha). apply elem_of_map_to_list in Ha. eauto.
  - intros [a Ha]. exists (name, a). split; first done.
    by apply elem_of_map_to_list.
Qed.

(** [ListAgents] and [LoadAgent] agree: the listed names are exactly the
    names that load, each is listed once, and a name that is not listed
    fails to load with the error that names it. *)
Theorem ListAgents_LoadAgent agents :
  (∀ name, name ∈ agentloader.ListAgents agents
           ↔ ∃ agent, agentloader.LoadAgent agents name = inl agent)
  ∧ NoDup (agentloader.ListAgents agents)
  ∧ length (agentloader.ListAgents agents) = size agents
  ∧ ∀ name, name ∉ agentloader.ListAgents agents →
            agentloader.LoadAgent agents name
            = inr ("agent " +:+ name +:+ " not found").
Proof.
  split; [|split; [|split]].
  - intros name. rewrite ListAgents_elem_of. unfold agentloader.LoadAgent.
    destruct (agents !! name) as [a|]; split; eauto.
    + by intros [? ?].
    + by intros [? ?].
  - rewrite ListAgents_keys. apply NoDup_fst_map_to_list.
  - by rewrite ListAgents_keys, length_fmap, length_map_to_list.
  - intros name Hname. unfold agentloader.LoadAgent.
    destruct (agents !! name) as [a|] eqn:Ha; last done.
    destruct Hname. apply ListAgents_elem_of. eauto.
Qed.

End AgentLoaderFacts.

(** ** The event-graph endpoint, case by case *)

Section EventGraphCases.

Context {SessionID Agent : Type}.
Variable AppName : SessionID → string.
Variable SessionIDFromHTTPParameters : gmap string string → SessionID + string.
Variable sessionService_Get : SessionID → list session.Event.t + string.
Variable LoadAgent : string → Agent + string.
Variable GetAgentGraph : Agent → list (list string) → string + string.

Lemma EventGraph_found vars sessionID event :
  foundEvent SessionIDFromHTTPParameters sessionService_Get vars sessionID event →
  handlers.EventGraph AppName SessionIDFromHTTPParameters sessionService_Get
    LoadAgent GetAgentGraph vars
  = match LoadAgent (AppName sessionID) with
    | inr err => handlers.Error err 500
    | inl agent =>
        match GetAgentGraph agent (handlers.highlightedPairs event) with
        | inr err => handlers.Error err 500
        | inl graph => handlers.EncodeJSONResponse {["dotSrc" := graph]} 200
        end
    end.
Proof.
  intros (Hs & events & eventID & Hget & Hid & Hne & Hfind).
  unfold handlers.EventGraph. rewrite Hs, Hget, Hid. simpl.
  by rewrite (proj2 (String.eqb_neq _ _) Hne), Hfind.
Qed.

(** [EventGraph] answers 404 exactly when the session is found, the
    requested identifier is not empty and no event of the session has
    it. *)
Theorem EventGraph_404_iff vars :
  statusOf (handlers.EventGraph AppName SessionIDFromHTTPParameters sessionService_Get
    LoadAgent GetAgentGraph vars) = 404
  ↔ ∃ sessionID events eventID,
      SessionIDFromHTTPParameters vars = inl sessionID
      ∧ sessionService_Get sessionID = inl events
      ∧ vars !! "event_id" = Some eventID ∧ eventID ≠ ""
      ∧ Forall (fun it => session.Event.ID it ≠ eventID) events.
Proof.
  unfold handlers.EventGraph. split.
  - destruct (SessionIDFromHTTPParameters vars) as [sid|err] eqn:Hs; last done.
    destruct (sessionService_Get sid) as [events|err] eqn:Hget; last done.
    destruct (vars !! "event_id") as [eventID|] eqn:Hid; simpl; last done.
    destruct (String.eqb_spec eventID "") as [->|Hne]; first done.
    destruct (List.find _ events) as [event|] eqn:Hfind.
    { destruct (LoadAgent _); last done. by destruct (GetAgentGraph _ _). }
    intros _. exists sid, events, eventID. repeat split; try done.
    apply Forall_forall. intros it Hit%list_elem_of_In.
    apply (find_none _ _ Hfind) in Hit. by apply String.eqb_neq.
  - intros (sid & events & eventID & -> & -> & -> & Hne & Hall). simpl.
    rewrite (proj2 (String.eqb_neq _ _) Hne).
    destruct (List.find _ events) as [event|] eqn:Hfind; last done.
    apply find_some in Hfind as [Hin Heq%String.eqb_eq].
    rewrite Forall_forall in Hall. by destruct (Hall event (proj2 (list_elem_of_In _ _) Hin)).
Qed.

(** [EventGraph] answers 200 exactly when the session and the event are
    found, the agent of the application loads and the graph renders; the
    body is then the graph rendered for the highlight pairs of the event
    found. *)
Theorem EventGraph_ok_iff vars body code :
  handlers.EventGraph AppName SessionIDFromHTTPParameters sessionService_Get
    LoadAgent GetAgentGraph vars = handlers.EncodeJSONResponse body code
  ↔ ∃ sessionID event agent graph,
      foundEvent SessionIDFromHTTPParameters sessionService_Get vars sessionID event
      ∧ LoadAgent (AppName sessionID) = inl agent
      ∧ GetAgentGraph agent (handlers.highlightedPairs event) = inl graph
      ∧ body = {["dotSrc" := graph]} ∧ code = 200.
Proof.
  split.
  - unfold handlers.EventGraph.
    destruct (SessionIDFromHTTPParameters vars) as [sid|err] eqn:Hs; last done.
    destruct (sessionService_Get sid) as [events|err] eqn:Hget; last done.
    destruct (vars !! "event_id") as [eventID|] eqn:Hid; simpl; last done.
    destruct (String.eqb_spec eventID "") as [->|Hne]; first done.
    destruct (List.find _ events) as [event|] eqn:Hfind; last done.
    destruct (LoadAgent (AppName sid)) as [agent|err] eqn:Hload; last done.
    destruct (GetAgentGraph agent _) as [graph|err] eqn:Hgraph; last done.
    intros [= <- <-]. exists sid, event, agent, graph.
    repeat split; eauto 10.
  - intros (sid & event & agent & graph & Hfound & Hload & Hgraph & -> & ->).
    by rewrite (EventGraph_found vars sid event Hfound), Hload, Hgraph.
Qed.

(** [EventGraph] answers 500 exactly when the session and the event are
    found and loading the agent or rendering the graph fails; a request
    whose session or event is not found is answered 400 or 404 and the
    agent loader is not what decides it. *)
Theorem EventGraph_500_iff vars :
  statusOf (handlers.EventGraph AppName SessionIDFromHTTPParameters sessionService_Get
    LoadAgent GetAgentGraph vars) = 500
  ↔ ∃ sessionID event,
      foundEvent SessionIDFromHTTPParameters sessionService_Get vars sessionID event
      ∧ ((∃ err, LoadAgent (AppName sessionID) = inr err)
         ∨ ∃ agent err,
             LoadAgent (AppName sessionID) = inl agent
             ∧ GetAgentGraph agent (handlers.highlightedPairs event) = inr err).
Proof.
  split.
  - unfold handlers.EventGraph.
    destruct (SessionIDFromHTTPParameters vars) as [sid|err] eqn:Hs; last done.
    destruct (sessionService_Get sid) as [events|err] eqn:Hget; last done.
    destruct (vars !! "event_id") as [eventID|] eqn:Hid; simpl; last done.
    destruct (String.eqb_spec eventID "") as [->|Hne]; first done.
    destruct (List.find _ events) as [event|] eqn:Hfind; last done.
    intros Hstatus. exists sid, event. split.
    { split; first done. eauto 10. }
    destruct (LoadAgent (AppName sid)) as [agent|err] eqn:Hload; last eauto.
    destruct (GetAgentGraph agent _) as [graph|err] eqn:Hgraph; first done.
    eauto 10.
  - intros (sid & event & Hfound & Hfail).
    rewrite (EventGraph_found vars sid event Hfound).
    destruct Hfail as [[err ->]|(agent & err & -> & ->)]; done.
Qed.

(** With the static agent loader, a request for the event of an
    application that the loader does not list is answered 500 with the
    loader's error, once session and event are found, whatever the graph
    renderer would do. *)
Theorem EventGraph_unknown_app (agents : gmap string Agent) vars sessionID event :
  foundEvent SessionIDFromHTTPParameters sessionService_Get vars sessionID event →
  AppName sessionID ∉ agentloader.ListAgents agents →
  handlers.EventGraph AppName SessionIDFromHTTPParameters sessionService_Get
    (agentloader.LoadAgent agents) GetAgentGraph vars
  = handlers.Error ("agent " +:+ AppName sessionID +:+ " not found") 500.
Proof.
  intros (Hs & events & eventID & Hget & Hid & Hne & Hfind) Happ.
  unfold handlers.EventGraph. rewrite Hs, Hget, Hid. simpl.
  rewrite (proj2 (String.eqb_neq _ _) Hne), Hfind.
  unfold agentloader.LoadAgent.
  destruct (agents !! AppName sessionID) as [agent|] eqn:Hagent; last done.
  destruct Happ. apply ListAgents_elem_of. eauto.
Qed.

End EventGraphCases.

Lemma EventGraph_unknown_app_witness :
  handlers.EventGraph (fun sessionID : string => sessionID)
    (fun vars => match vars !! "app_name" with
                 | Some app => inl app
                 | None => inr "app_name parameter is required"
                 end)
    (fun _ => inl [bareEvent; sampleToolEvent])
    (agentloader.LoadAgent ({["weather" := 1]} : gmap string nat))
    (fun (_ : nat) _ => inl "digraph {}")
    {["app_name" := "search"; "event_id" := "e1"]}
  = handlers.Error "agent search not found" 500.
Proof.
  apply (EventGraph_unknown_app (fun sessionID : string => sessionID)
           (fun vars => match vars !! "app_name" with
                        | Some app => inl app
                        | None => inr "app_name parameter is required"
                        end)
           (fun _ => inl [bareEvent; sampleToolEvent])
           (fun (_ : nat) _ => inl "digraph {}")
           ({["weather" := 1]} : gmap string nat)
           {["app_name" := "search"; "event_id" := "e1"]} "search" sampleToolEvent).
  - split; first reflexivity.
    exists [bareEvent; sampleToolEvent], "e1". repeat split. discriminate.
  - rewrite ListAgents_elem_of. intros [a Ha]. discriminate Ha.
Defined.


(** ** The attributes of a tool call *)

Section ToolCallSchema.

Variable json_Marshal : telemetry.any → telemetry.MarshalResult.

(** On an event with response content, the attribute list of a tool call
    names the operation ["execute_tool"], the tool and its description,
    carries the serialised arguments and the identifier of the event, each
    once, sets the empty LLM request twice and no LLM response, and holds
    nine attributes in all. *)
Theorem TraceToolCall_schema t fnArgs e llmResponse content :
  session.Event.LLMResponse e = Some llmResponse →
  model.LLMResponse.Content llmResponse = Some content →
  ∃ attributes,
    telemetry.toolCallAttributes json_Marshal t fnArgs e = Some attributes
    ∧ length attributes = 9
    ∧ entriesOf "gen_ai.operation.name" attributes = [attribute.StringValue "execute_tool"]
    ∧ entriesOf "gen_ai.tool.name" attributes = [attribute.StringValue (tool.Name t)]
    ∧ entriesOf "gen_ai.tool.description" attributes
      = [attribute.StringValue (tool.Description t)]
    ∧ entriesOf "gcp.vertex.agent.tool_call_args" attributes
      = [attribute.StringValue
           (telemetry.safeSerialize json_Marshal (telemetry.AnyMap fnArgs))]
    ∧ entriesOf "gcp.vertex.agent.event_id" attributes
      = [attribute.StringValue (session.Event.ID e)]
    ∧ entriesOf "gcp.vertex.agent.llm_request" attributes
      = [attribute.StringValue "{}"; attribute.StringValue "{}"]
    ∧ entriesOf "gcp.vertex.agent.llm_response" attributes = [].
Proof.
  intros Hr Hc. unfold telemetry.toolCallAttributes.
  rewrite Hr. simpl. rewrite Hc. simpl.
  destruct (elems (genai.Content.Parts content)) as [|part0 rest];
    [|destruct (genai.Part.FunctionResponse part0) as [fr|]];
    eexists; (split; first done); repeat split.
Qed.

End ToolCallSchema.

Lemma TraceToolCall_schema_witness :
  ∃ attributes,
    telemetry.toolCallAttributes telemetry.sampleMarshal searchTool None sampleToolEvent
    = Some attributes
    ∧ length attributes = 9
    ∧ entriesOf "gen_ai.tool.name" attributes = [attribute.StringValue "search"]
    ∧ entriesOf "gcp.vertex.agent.tool_call_args" attributes
      = [attribute.StringValue "null"].
Proof.
  destruct (TraceToolCall_schema telemetry.sampleMarshal searchTool None sampleToolEvent
              _ _ eq_refl eq_refl)
    as (attributes & Ha & Hlen & _ & Hname & _ & Hargs & _).
  exists attributes. repeat split; assumption.
Defined.
